(** * ViGEmBus: the I/O control dispatcher of the bus FDO (sys/Queue.cpp)

    [Bus_EvtIoDeviceControl] decodes an I/O control code, validates the
    request's buffers, resolves the emulation target and calls into it, and
    finally completes the request unless its status is [STATUS_PENDING].

    The function is embedded as a computation in a small state monad whose
    state holds the bus (the child list of the device behind [Queue] and its
    targets), the system buffer of [Request] and a log of the calls the
    dispatcher makes.  Tracing ([TraceDbg], [TraceEvents], [KdPrint]) has no
    effect on the request and is left out. *)

From Stdlib Require Import ZArith NArith List Bool Lia.
From Stdlib.Strings Require Import Byte.
Import ListNotations.

(** ** NTSTATUS *)

(** NTSTATUS is a signed 32-bit LONG; the values are those of ntstatus.h. *)
Definition NTSTATUS := Z.

Definition ntstatus (code : Z) : NTSTATUS :=
  (if code <? 2 ^ 31 then code else code - 2 ^ 32)%Z.

Definition STATUS_SUCCESS : NTSTATUS := Eval cbv in ntstatus 0x00000000.
Definition STATUS_PENDING : NTSTATUS := Eval cbv in ntstatus 0x00000103.
Definition STATUS_INVALID_PARAMETER : NTSTATUS :=
  Eval cbv in ntstatus 0xC000000D.
Definition STATUS_INVALID_DEVICE_REQUEST : NTSTATUS :=
  Eval cbv in ntstatus 0xC0000010.
Definition STATUS_BUFFER_TOO_SMALL : NTSTATUS :=
  Eval cbv in ntstatus 0xC0000023.
Definition STATUS_NOT_SUPPORTED : NTSTATUS :=
  Eval cbv in ntstatus 0xC00000BB.
Definition STATUS_DEVICE_DOES_NOT_EXIST : NTSTATUS :=
  Eval cbv in ntstatus 0xC00000C0.

(** [#define NT_SUCCESS(Status) (((NTSTATUS)(Status)) >= 0)] *)
Definition NT_SUCCESS (Status : NTSTATUS) : bool := (0 <=? Status)%Z.

(** ** Request structures *)

(** Unsigned quantities (ULONG, size_t) are natural numbers in [N]. *)

Fixpoint le_to_N (bs : list byte) : N :=
  match bs with
  | [] => 0
  | b :: bs' => Byte.to_N b + 256 * le_to_N bs'
  end%N.

Definition byte_of_N (n : N) : byte :=
  match Byte.of_N (n mod 256) with
  | Some b => b
  | None => x00
  end.

Fixpoint N_to_le (k : nat) (n : N) : list byte :=
  match k with
  | O => []
  | S k' => byte_of_N n :: N_to_le k' (n / 256)
  end.

(** A ULONG member at byte offset [off] of the structure at [p]
    (little-endian, as on every Windows target).  Both are meant for
    [off + 4 <= length p]; the dispatcher only dereferences a buffer that the
    framework returned with at least [sizeof] bytes. *)
Definition read_ULONG (p : list byte) (off : nat) : N :=
  le_to_N (firstn 4 (skipn off p)).

Definition write_ULONG (p : list byte) (off : nat) (v : N) : list byte :=
  firstn off p ++ N_to_le 4 v ++ skipn (off + 4) p.

(** Modelled from the spec: the request structures are declared in the shared
    client/driver header, which is not part of the sources at hand.  The spec
    (external interfaces) gives their shape: every structure begins with the
    declared [Size]; version check is [{Size, Version}]; submit, notification
    and user-index requests are [{Size, SerialNo, ...}]; the user-index
    structure carries the attribute after the serial.  All these members are
    ULONGs, hence the offsets 0, 4 and 8. *)
Definition off_Size : nat := 0.
Definition off_Version : nat := 4.
Definition off_SerialNo : nat := 4.
Definition off_UserIndex : nat := 8.

(** The structures whose [sizeof] the dispatcher uses. *)
Inductive STRUCT :=
| VIGEM_CHECK_VERSION
| XUSB_SUBMIT_REPORT
| XUSB_REQUEST_NOTIFICATION
| DS4_SUBMIT_REPORT
| DS4_REQUEST_NOTIFICATION
| XUSB_GET_USER_INDEX.

(** The case labels of the dispatcher's switch, in source order. *)
Inductive IOCTL :=
| IOCTL_VIGEM_CHECK_VERSION
| IOCTL_VIGEM_PLUGIN_TARGET
| IOCTL_VIGEM_UNPLUG_TARGET
| IOCTL_XUSB_SUBMIT_REPORT
| IOCTL_XUSB_REQUEST_NOTIFICATION
| IOCTL_DS4_SUBMIT_REPORT
| IOCTL_DS4_REQUEST_NOTIFICATION
| IOCTL_XUSB_GET_USER_INDEX.

Definition all_IOCTL : list IOCTL :=
  [ IOCTL_VIGEM_CHECK_VERSION; IOCTL_VIGEM_PLUGIN_TARGET;
    IOCTL_VIGEM_UNPLUG_TARGET; IOCTL_XUSB_SUBMIT_REPORT;
    IOCTL_XUSB_REQUEST_NOTIFICATION; IOCTL_DS4_SUBMIT_REPORT;
    IOCTL_DS4_REQUEST_NOTIFICATION; IOCTL_XUSB_GET_USER_INDEX ].

(** The two enumerators of VIGEM_TARGET_TYPE that the dispatcher names. *)
Inductive VIGEM_TARGET_TYPE :=
| Xbox360Wired
| DualShock4Wired.

(** The constants that the dispatcher takes from headers outside this file:
    the numeric value of each I/O control code, the size of each structure and
    the compiled protocol version. *)
Record Header := {
  CTL_CODE : IOCTL -> N;
  sizeof : STRUCT -> N;
  VIGEM_COMMON_VERSION : N
}.

(** ** Collaborators *)

(** A framework request, reduced to its system buffer (METHOD_BUFFERED: one
    buffer carries the input structure in and the output structure out). *)
Record WDFREQUEST := { SystemBuffer : list byte }.

(** The functions of the driver that the dispatcher calls and that live in
    other translation units.  They act on the bus state (the FDO's child list
    and the targets behind it); nothing is assumed about what they do. *)
Record Bus := {
  BusState : Type;
  PDO : Type;
  (** [EmulationTargetPDO::GetPdoByTypeAndSerial(Device, Type, SerialNo,
      &pdo)]: the target found, if any. *)
  GetPdoByTypeAndSerial : BusState -> VIGEM_TARGET_TYPE -> N -> option PDO;
  (** [pdo->SubmitReport(NewReport)] *)
  SubmitReport : PDO -> list byte -> BusState -> NTSTATUS * BusState;
  (** [pdo->EnqueueNotification(Request)] *)
  EnqueueNotification : PDO -> WDFREQUEST -> BusState -> NTSTATUS * BusState;
  (** [xusb->GetUserIndex(PULONG UserIndex)]: the status, what it stored
      through the pointer (if anything), and the state afterwards. *)
  GetUserIndex : PDO -> BusState -> NTSTATUS * option N * BusState;
  (** [Bus_PlugInDevice(Device, Request, FALSE, &length)]: status and the value
      left in [length]. *)
  Bus_PlugInDevice : WDFREQUEST -> BusState -> NTSTATUS * N * BusState;
  (** [Bus_UnPlugDevice(Device, Request, FALSE, &length)] *)
  Bus_UnPlugDevice : WDFREQUEST -> BusState -> NTSTATUS * N * BusState
}.

(** Modelled from the spec: [EmulationTargetXUSB::GetUserIndex] is defined with
    the XUSB target, outside the sources at hand.  The spec lists the user
    index among the variant state of a target and says of the attribute read
    that variant A (XUSB) exposes it: the call stores the target's user index
    through the pointer it is given, reports success and changes nothing. *)
Definition XusbGetUserIndex {S : Type} (UserIndex : N) (st : S)
  : NTSTATUS * option N * S :=
  (STATUS_SUCCESS, Some UserIndex, st).

(** ** The dispatcher's monad *)

Section Dispatcher.

Variable hdr : Header.
Variable B : Bus.

(** What the dispatcher does to the outside, in program order. *)
Inductive Event :=
| EvRetrieveInputBuffer (MinimumRequiredSize : N)
| EvGetPdoByTypeAndSerial (Type_ : VIGEM_TARGET_TYPE) (SerialNo : N)
| EvSubmitReport (pdo : PDO B)
| EvEnqueueNotification (pdo : PDO B)
| EvGetUserIndex (pdo : PDO B)
| EvPlugInDevice
| EvUnPlugDevice
| EvComplete (status : NTSTATUS) (Information : option N).

Record World := mkWorld {
  w_bus : BusState B;
  w_request : WDFREQUEST;
  w_log : list Event
}.

Definition M (A : Type) : Type := World -> A * World.

Definition ret {A} (a : A) : M A := fun w => (a, w).

Definition bind {A C} (m : M A) (f : A -> M C) : M C :=
  fun w => let (a, w') := m w in f a w'.

Definition emit (e : Event) (w : World) : World :=
  mkWorld (w_bus w) (w_request w) (w_log w ++ [e]).

Local Notation "x <- m ;; k" := (bind m (fun x => k))
  (at level 61, m at next level, right associativity).
Local Notation "' pat <- m ;; k" :=
  (bind m (fun x => match x with pat => k end))
  (at level 61, pat pattern, m at next level, right associativity).
Local Notation "m ;;; k" := (bind m (fun _ => k))
  (at level 61, right associativity).

(** *** Framework calls *)

(** [WdfRequestRetrieveInputBuffer(Request, MinimumRequiredSize, &Buffer,
    &Length)] by its documented contract: STATUS_BUFFER_TOO_SMALL when the
    input buffer is empty or shorter than [MinimumRequiredSize] (the caller's
    [length] then stays 0), otherwise STATUS_SUCCESS with the buffer's length.
    The buffer pointer it hands out is the request's system buffer. *)
Definition RetrieveInputBuffer (Request : WDFREQUEST) (MinimumRequiredSize : N)
  : NTSTATUS * N :=
  let len := N.of_nat (List.length (SystemBuffer Request)) in
  if ((len =? 0) || (len <? MinimumRequiredSize))%N
  then (STATUS_BUFFER_TOO_SMALL, 0%N)
  else (STATUS_SUCCESS, len).

Definition WdfRequestRetrieveInputBuffer (MinimumRequiredSize : N)
  : M (NTSTATUS * N) :=
  fun w => (RetrieveInputBuffer (w_request w) MinimumRequiredSize,
            emit (EvRetrieveInputBuffer MinimumRequiredSize) w).

(** [WdfRequestCompleteWithInformation(Request, status, length)] *)
Definition WdfRequestCompleteWithInformation (status : NTSTATUS) (length : N)
  : M unit :=
  fun w => (tt, emit (EvComplete status (Some length)) w).

(** [WdfRequestComplete(Request, status)] *)
Definition WdfRequestComplete (status : NTSTATUS) : M unit :=
  fun w => (tt, emit (EvComplete status None) w).

(** [p->Member] for the structure pointer obtained from the framework. *)
Definition member (off : nat) : M N :=
  fun w => (read_ULONG (SystemBuffer (w_request w)) off, w).

(** *** Calls into the rest of the driver *)

Definition call_GetPdoByTypeAndSerial (Type_ : VIGEM_TARGET_TYPE) (SerialNo : N)
  : M (option (PDO B)) :=
  fun w => (GetPdoByTypeAndSerial B (w_bus w) Type_ SerialNo,
            emit (EvGetPdoByTypeAndSerial Type_ SerialNo) w).

Definition call_SubmitReport (pdo : PDO B) : M NTSTATUS :=
  fun w =>
    let (status, bus') :=
      SubmitReport B pdo (SystemBuffer (w_request w)) (w_bus w) in
    (status, mkWorld bus' (w_request w) (w_log w ++ [EvSubmitReport pdo])).

Definition call_EnqueueNotification (pdo : PDO B) : M NTSTATUS :=
  fun w =>
    let (status, bus') := EnqueueNotification B pdo (w_request w) (w_bus w) in
    (status,
     mkWorld bus' (w_request w) (w_log w ++ [EvEnqueueNotification pdo])).

(** [xusb->GetUserIndex(&pXusbGetUserIndex->UserIndex)]: what the target
    stores lands in the [UserIndex] member of the request's structure. *)
Definition call_GetUserIndex (pdo : PDO B) : M NTSTATUS :=
  fun w =>
    let '(status, stored, bus') := GetUserIndex B pdo (w_bus w) in
    let buffer := SystemBuffer (w_request w) in
    let buffer' :=
      match stored with
      | Some v => write_ULONG buffer off_UserIndex v
      | None => buffer
      end in
    (status,
     mkWorld bus' {| SystemBuffer := buffer' |}
       (w_log w ++ [EvGetUserIndex pdo])).

Definition call_Bus_PlugInDevice : M (NTSTATUS * N) :=
  fun w =>
    let '(status, length, bus') := Bus_PlugInDevice B (w_request w) (w_bus w) in
    ((status, length),
     mkWorld bus' (w_request w) (w_log w ++ [EvPlugInDevice])).

Definition call_Bus_UnPlugDevice : M (NTSTATUS * N) :=
  fun w =>
    let '(status, length, bus') := Bus_UnPlugDevice B (w_request w) (w_bus w) in
    ((status, length),
     mkWorld bus' (w_request w) (w_log w ++ [EvUnPlugDevice])).

(** ** Bus_EvtIoDeviceControl *)

(** The switch on [IoControlCode]: the first label, in source order, whose
    value is the code (labels of one switch are pairwise distinct). *)
Definition case_label (IoControlCode : N) : option IOCTL :=
  find (fun c => (IoControlCode =? CTL_CODE hdr c)%N) all_IOCTL.

(** Every case yields the locals [(status, length)] with which control leaves
    the switch; both start as in the declarations at the top of the function. *)
Definition status_init : NTSTATUS := STATUS_INVALID_PARAMETER.
Definition length_init : N := 0.

Definition case_CHECK_VERSION : M (NTSTATUS * N) :=
  '(status, length) <-
    WdfRequestRetrieveInputBuffer (sizeof hdr VIGEM_CHECK_VERSION) ;;
  if negb (NT_SUCCESS status)
     || negb (length =? sizeof hdr VIGEM_CHECK_VERSION)%N
  then ret (STATUS_INVALID_PARAMETER, length)
  else
    Version <- member off_Version ;;
    ret (if (Version =? VIGEM_COMMON_VERSION hdr)%N
         then STATUS_SUCCESS else STATUS_NOT_SUPPORTED,
         length).

Definition case_PLUGIN_TARGET : M (NTSTATUS * N) := call_Bus_PlugInDevice.

Definition case_UNPLUG_TARGET : M (NTSTATUS * N) := call_Bus_UnPlugDevice.

Definition case_XUSB_SUBMIT_REPORT (InputBufferLength : N) : M (NTSTATUS * N) :=
  '(status, length) <-
    WdfRequestRetrieveInputBuffer (sizeof hdr XUSB_SUBMIT_REPORT) ;;
  if negb (NT_SUCCESS status) then ret (status, length)
  else
    Size <- member off_Size ;;
    if ((sizeof hdr XUSB_SUBMIT_REPORT =? Size)
        && (length =? InputBufferLength))%N
    then
      SerialNo <- member off_SerialNo ;;
      if (SerialNo =? 0)%N then ret (STATUS_INVALID_PARAMETER, length)
      else
        found <- call_GetPdoByTypeAndSerial Xbox360Wired SerialNo ;;
        match found with
        | None => ret (STATUS_DEVICE_DOES_NOT_EXIST, length)
        | Some pdo =>
            status <- call_SubmitReport pdo ;;
            ret (status, length)
        end
    else ret (status, length).

Definition case_XUSB_REQUEST_NOTIFICATION
  (OutputBufferLength InputBufferLength : N) : M (NTSTATUS * N) :=
  if (OutputBufferLength <? sizeof hdr XUSB_REQUEST_NOTIFICATION)%N
  then ret (status_init, length_init)
  else
    '(status, length) <-
      WdfRequestRetrieveInputBuffer (sizeof hdr XUSB_REQUEST_NOTIFICATION) ;;
    if negb (NT_SUCCESS status) then ret (status, length)
    else
      Size <- member off_Size ;;
      if ((sizeof hdr XUSB_REQUEST_NOTIFICATION =? Size)
          && (length =? InputBufferLength))%N
      then
        SerialNo <- member off_SerialNo ;;
        if (SerialNo =? 0)%N then ret (STATUS_INVALID_PARAMETER, length)
        else
          found <- call_GetPdoByTypeAndSerial Xbox360Wired SerialNo ;;
          match found with
          | None => ret (STATUS_DEVICE_DOES_NOT_EXIST, length)
          | Some pdo =>
              status <- call_EnqueueNotification pdo ;;
              ret (if NT_SUCCESS status then STATUS_PENDING else status, length)
          end
      else ret (status, length).

Definition case_DS4_SUBMIT_REPORT (InputBufferLength : N) : M (NTSTATUS * N) :=
  '(status, length) <-
    WdfRequestRetrieveInputBuffer (sizeof hdr DS4_SUBMIT_REPORT) ;;
  if negb (NT_SUCCESS status) then ret (status, length)
  else
    Size <- member off_Size ;;
    if ((sizeof hdr DS4_SUBMIT_REPORT =? Size)
        && (length =? InputBufferLength))%N
    then
      SerialNo <- member off_SerialNo ;;
      if (SerialNo =? 0)%N then ret (STATUS_INVALID_PARAMETER, length)
      else
        found <- call_GetPdoByTypeAndSerial DualShock4Wired SerialNo ;;
        match found with
        | None => ret (STATUS_DEVICE_DOES_NOT_EXIST, length)
        | Some pdo =>
            status <- call_SubmitReport pdo ;;
            ret (status, length)
        end
    else ret (status, length).

Definition case_DS4_REQUEST_NOTIFICATION
  (OutputBufferLength InputBufferLength : N) : M (NTSTATUS * N) :=
  if (OutputBufferLength <? sizeof hdr DS4_REQUEST_NOTIFICATION)%N
  then ret (status_init, length_init)
  else
    '(status, length) <-
      WdfRequestRetrieveInputBuffer (sizeof hdr DS4_REQUEST_NOTIFICATION) ;;
    if negb (NT_SUCCESS status) then ret (status, length)
    else
      Size <- member off_Size ;;
      if ((sizeof hdr DS4_REQUEST_NOTIFICATION =? Size)
          && (length =? InputBufferLength))%N
      then
        SerialNo <- member off_SerialNo ;;
        if (SerialNo =? 0)%N then ret (STATUS_INVALID_PARAMETER, length)
        else
          found <- call_GetPdoByTypeAndSerial DualShock4Wired SerialNo ;;
          match found with
          | None => ret (STATUS_DEVICE_DOES_NOT_EXIST, length)
          | Some pdo =>
              status <- call_EnqueueNotification pdo ;;
              ret (if NT_SUCCESS status then STATUS_PENDING else status, length)
          end
      else ret (status, length).

Definition case_XUSB_GET_USER_INDEX
  (OutputBufferLength InputBufferLength : N) : M (NTSTATUS * N) :=
  if (OutputBufferLength <? sizeof hdr XUSB_GET_USER_INDEX)%N
  then ret (status_init, length_init)
  else
    '(status, length) <-
      WdfRequestRetrieveInputBuffer (sizeof hdr XUSB_GET_USER_INDEX) ;;
    if negb (NT_SUCCESS status) then ret (status, length)
    else
      Size <- member off_Size ;;
      if ((sizeof hdr XUSB_GET_USER_INDEX =? Size)
          && (length =? InputBufferLength))%N
      then
        SerialNo <- member off_SerialNo ;;
        if (SerialNo =? 0)%N then ret (STATUS_INVALID_PARAMETER, length)
        else
          found <- call_GetPdoByTypeAndSerial Xbox360Wired SerialNo ;;
          match found with
          | None => ret (STATUS_DEVICE_DOES_NOT_EXIST, length)
          | Some pdo =>
              status <- call_GetUserIndex pdo ;;
              ret (status, length)
          end
      else ret (status, length).

(** The body of the switch. *)
Definition switch_IoControlCode
  (OutputBufferLength InputBufferLength IoControlCode : N) : M (NTSTATUS * N) :=
  match case_label IoControlCode with
  | Some IOCTL_VIGEM_CHECK_VERSION => case_CHECK_VERSION
  | Some IOCTL_VIGEM_PLUGIN_TARGET => case_PLUGIN_TARGET
  | Some IOCTL_VIGEM_UNPLUG_TARGET => case_UNPLUG_TARGET
  | Some IOCTL_XUSB_SUBMIT_REPORT => case_XUSB_SUBMIT_REPORT InputBufferLength
  | Some IOCTL_XUSB_REQUEST_NOTIFICATION =>
      case_XUSB_REQUEST_NOTIFICATION OutputBufferLength InputBufferLength
  | Some IOCTL_DS4_SUBMIT_REPORT => case_DS4_SUBMIT_REPORT InputBufferLength
  | Some IOCTL_DS4_REQUEST_NOTIFICATION =>
      case_DS4_REQUEST_NOTIFICATION OutputBufferLength InputBufferLength
  | Some IOCTL_XUSB_GET_USER_INDEX =>
      case_XUSB_GET_USER_INDEX OutputBufferLength InputBufferLength
  | None => ret (status_init, length_init)
  end.

(** The whole handler.  It is VOID in the source; the model hands back the
    locals [(status, length)] as they are at the exit. *)
Definition Bus_EvtIoDeviceControl
  (OutputBufferLength InputBufferLength IoControlCode : N) : M (NTSTATUS * N) :=
  '(status, length) <-
    switch_IoControlCode OutputBufferLength InputBufferLength IoControlCode ;;
  (if negb (status =? STATUS_PENDING)%Z
   then WdfRequestCompleteWithInformation status length
   else ret tt) ;;;
  ret (status, length).

(** [Bus_EvtIoDefault]: catches unsupported requests. *)
Definition Bus_EvtIoDefault : M unit :=
  WdfRequestComplete STATUS_INVALID_DEVICE_REQUEST.

(** *** Running the handler on one request *)

(** [Dispatch] runs the handler for [Request] on the bus state [bus], with an
    empty log. *)
Definition Dispatch (bus : BusState B) (Request : WDFREQUEST)
  (OutputBufferLength InputBufferLength IoControlCode : N)
  : (NTSTATUS * N) * World :=
  Bus_EvtIoDeviceControl OutputBufferLength InputBufferLength IoControlCode
    (mkWorld bus Request []).

Definition status_of (r : (NTSTATUS * N) * World) : NTSTATUS := fst (fst r).
Definition length_of (r : (NTSTATUS * N) * World) : N := snd (fst r).
Definition bus_of (r : (NTSTATUS * N) * World) : BusState B := w_bus (snd r).
Definition buffer_of (r : (NTSTATUS * N) * World) : list byte :=
  SystemBuffer (w_request (snd r)).
Definition log_of (r : (NTSTATUS * N) * World) : list Event := w_log (snd r).

(** The registry lookups, input retrievals and completions in a log. *)
Definition lookups (log : list Event) : list (VIGEM_TARGET_TYPE * N) :=
  flat_map (fun e => match e with
                     | EvGetPdoByTypeAndSerial t s => [(t, s)]
                     | _ => []
                     end) log.

Definition retrievals (log : list Event) : list N :=
  flat_map (fun e => match e with
                     | EvRetrieveInputBuffer n => [n]
                     | _ => []
                     end) log.

Definition completions (log : list Event) : list (NTSTATUS * option N) :=
  flat_map (fun e => match e with
                     | EvComplete s n => [(s, n)]
                     | _ => []
                     end) log.

(** Calls that reach the registry or a target. *)
Definition is_bus_action (e : Event) : bool :=
  match e with
  | EvGetPdoByTypeAndSerial _ _ | EvSubmitReport _ | EvEnqueueNotification _
  | EvGetUserIndex _ | EvPlugInDevice | EvUnPlugDevice => true
  | _ => false
  end.

(** The bus state after the same request has been dispatched [n] times. *)
Fixpoint redispatch (Request : WDFREQUEST)
  (OutputBufferLength InputBufferLength IoControlCode : N)
  (n : nat) (bus : BusState B) : BusState B :=
  match n with
  | O => bus
  | S n' =>
      redispatch Request OutputBufferLength InputBufferLength IoControlCode n'
        (bus_of (Dispatch bus Request OutputBufferLength InputBufferLength
                   IoControlCode))
  end.

End Dispatcher.

Arguments EvRetrieveInputBuffer {B}.
Arguments EvGetPdoByTypeAndSerial {B}.
Arguments EvSubmitReport {B}.
Arguments EvEnqueueNotification {B}.
Arguments EvGetUserIndex {B}.
Arguments EvPlugInDevice {B}.
Arguments EvUnPlugDevice {B}.
Arguments EvComplete {B}.
Arguments status_of {B}.
Arguments length_of {B}.
Arguments bus_of {B}.
Arguments buffer_of {B}.
Arguments log_of {B}.
Arguments lookups {B}.
Arguments retrievals {B}.
Arguments completions {B}.
Arguments is_bus_action {B}.

(** ** Vocabulary of the dispatcher's contract *)

(** The structure that a case retrieves from the input buffer, if it retrieves
    one itself (plug-in and unplug hand the request on unread). *)
Definition input_struct (c : IOCTL) : option STRUCT :=
  match c with
  | IOCTL_VIGEM_CHECK_VERSION => Some VIGEM_CHECK_VERSION
  | IOCTL_VIGEM_PLUGIN_TARGET => None
  | IOCTL_VIGEM_UNPLUG_TARGET => None
  | IOCTL_XUSB_SUBMIT_REPORT => Some XUSB_SUBMIT_REPORT
  | IOCTL_XUSB_REQUEST_NOTIFICATION => Some XUSB_REQUEST_NOTIFICATION
  | IOCTL_DS4_SUBMIT_REPORT => Some DS4_SUBMIT_REPORT
  | IOCTL_DS4_REQUEST_NOTIFICATION => Some DS4_REQUEST_NOTIFICATION
  | IOCTL_XUSB_GET_USER_INDEX => Some XUSB_GET_USER_INDEX
  end.

(** The target-scoped operations and the target type each one expects. *)
Definition expected_type (c : IOCTL) : option VIGEM_TARGET_TYPE :=
  match c with
  | IOCTL_XUSB_SUBMIT_REPORT => Some Xbox360Wired
  | IOCTL_XUSB_REQUEST_NOTIFICATION => Some Xbox360Wired
  | IOCTL_DS4_SUBMIT_REPORT => Some DualShock4Wired
  | IOCTL_DS4_REQUEST_NOTIFICATION => Some DualShock4Wired
  | IOCTL_XUSB_GET_USER_INDEX => Some Xbox360Wired
  | _ => None
  end.

(** The operations that produce output: their structure also bounds the
    output capacity from below. *)
Definition expects_output (c : IOCTL) : bool :=
  match c with
  | IOCTL_XUSB_REQUEST_NOTIFICATION
  | IOCTL_DS4_REQUEST_NOTIFICATION
  | IOCTL_XUSB_GET_USER_INDEX => true
  | _ => false
  end.

Definition is_request_notification (c : IOCTL) : bool :=
  match c with
  | IOCTL_XUSB_REQUEST_NOTIFICATION | IOCTL_DS4_REQUEST_NOTIFICATION => true
  | _ => false
  end.

Section Contract.

Variable hdr : Header.

(** The input buffer of [Request] can be retrieved as a structure [s]. *)
Definition retrieved (Request : WDFREQUEST) (s : STRUCT) : bool :=
  NT_SUCCESS (fst (RetrieveInputBuffer Request (sizeof hdr s))).

Definition retrieved_length (Request : WDFREQUEST) (s : STRUCT) : N :=
  snd (RetrieveInputBuffer Request (sizeof hdr s)).

Definition Size (Request : WDFREQUEST) : N :=
  read_ULONG (SystemBuffer Request) off_Size.

Definition SerialNo (Request : WDFREQUEST) : N :=
  read_ULONG (SystemBuffer Request) off_SerialNo.

Definition Version (Request : WDFREQUEST) : N :=
  read_ULONG (SystemBuffer Request) off_Version.

(** The two size checks: the declared [Size] is the structure's size, and the
    retrieved length is the transport's [InputBufferLength]. *)
Definition size_checks (Request : WDFREQUEST) (InputBufferLength : N)
  (s : STRUCT) : bool :=
  ((sizeof hdr s =? Size Request)
   && (retrieved_length Request s =? InputBufferLength))%N.

(** The output capacity holds the structure of an operation with output. *)
Definition output_fits (OutputBufferLength : N) (c : IOCTL) (s : STRUCT)
  : bool :=
  negb (expects_output c && (OutputBufferLength <? sizeof hdr s)%N).

(** A request that fails one of the dispatcher's own validation checks:
    unknown code, insufficient output capacity, input buffer not retrievable
    (missing or undersized), wrong length (version check), [Size] or length
    mismatch, zero serial.  Plug-in and unplug requests are validated by
    [Bus_PlugInDevice] and [Bus_UnPlugDevice], not by the dispatcher. *)
Definition validation_fails (Request : WDFREQUEST)
  (OutputBufferLength InputBufferLength IoControlCode : N) : bool :=
  match case_label hdr IoControlCode with
  | None => true
  | Some c =>
      match input_struct c with
      | None => false
      | Some s =>
          negb (output_fits OutputBufferLength c s)
          || negb (retrieved Request s)
          || match expected_type c with
             | None => negb (retrieved_length Request s =? sizeof hdr s)%N
             | Some _ =>
                 negb (size_checks Request InputBufferLength s)
                 || (SerialNo Request =? 0)%N
             end
      end
  end.

End Contract.

(** ** A small bus to run the dispatcher on *)

Module Fixture.

(** Sample values for the header constants. *)
Definition header : Header := {|
  CTL_CODE := fun c =>
    match c with
    | IOCTL_VIGEM_PLUGIN_TARGET => 0x2AA004
    | IOCTL_VIGEM_UNPLUG_TARGET => 0x2AA008
    | IOCTL_VIGEM_CHECK_VERSION => 0x2AA00C
    | IOCTL_XUSB_REQUEST_NOTIFICATION => 0x2AE804
    | IOCTL_XUSB_SUBMIT_REPORT => 0x2AA808
    | IOCTL_DS4_SUBMIT_REPORT => 0x2AA80C
    | IOCTL_DS4_REQUEST_NOTIFICATION => 0x2AE810
    | IOCTL_XUSB_GET_USER_INDEX => 0x2AE81C
    end%N;
  sizeof := fun s =>
    match s with
    | VIGEM_CHECK_VERSION => 8
    | XUSB_SUBMIT_REPORT => 20
    | XUSB_REQUEST_NOTIFICATION => 12
    | DS4_SUBMIT_REPORT => 20
    | DS4_REQUEST_NOTIFICATION => 12
    | XUSB_GET_USER_INDEX => 12
    end%N;
  VIGEM_COMMON_VERSION := 1
|}.

(** A target: type, serial, user index, and how many reports and
    notification requests it has taken. *)
Record Target := {
  t_type : VIGEM_TARGET_TYPE;
  t_serial : N;
  t_user_index : N;
  t_reports : nat;
  t_parked : nat
}.

Definition type_eqb (a b : VIGEM_TARGET_TYPE) : bool :=
  match a, b with
  | Xbox360Wired, Xbox360Wired | DualShock4Wired, DualShock4Wired => true
  | _, _ => false
  end.

Definition is_target (t : VIGEM_TARGET_TYPE) (serial : N) (x : Target) : bool :=
  type_eqb (t_type x) t && (t_serial x =? serial)%N.

Definition update (k : VIGEM_TARGET_TYPE * N) (f : Target -> Target)
  (st : list Target) : list Target :=
  map (fun x => if is_target (fst k) (snd k) x then f x else x) st.

(** The user index of a target, as the ULONG it is reported in. *)
Definition user_index (st : list Target) (k : VIGEM_TARGET_TYPE * N) : N :=
  match find (is_target (fst k) (snd k)) st with
  | Some x => t_user_index x mod 2 ^ 32
  | None => 0
  end%N.

(** Targets are named by (type, serial); submit and enqueue count what they
    receive, plug-in adds an XUSB target with the request's serial, unplug
    removes the targets with that serial. *)
Definition bus : Bus := {|
  BusState := list Target;
  PDO := VIGEM_TARGET_TYPE * N;
  GetPdoByTypeAndSerial := fun st t serial =>
    match find (is_target t serial) st with
    | Some _ => Some (t, serial)
    | None => None
    end;
  SubmitReport := fun pdo _ st =>
    (STATUS_SUCCESS,
     update pdo (fun x => {| t_type := t_type x; t_serial := t_serial x;
                             t_user_index := t_user_index x;
                             t_reports := S (t_reports x);
                             t_parked := t_parked x |}) st);
  EnqueueNotification := fun pdo _ st =>
    (STATUS_SUCCESS,
     update pdo (fun x => {| t_type := t_type x; t_serial := t_serial x;
                             t_user_index := t_user_index x;
                             t_reports := t_reports x;
                             t_parked := S (t_parked x) |}) st);
  GetUserIndex := fun pdo st => XusbGetUserIndex (user_index st pdo) st;
  Bus_PlugInDevice := fun Request st =>
    (STATUS_SUCCESS, 0%N,
     {| t_type := Xbox360Wired;
        t_serial := read_ULONG (SystemBuffer Request) off_SerialNo;
        t_user_index := 0; t_reports := 0; t_parked := 0 |} :: st);
  Bus_UnPlugDevice := fun Request st =>
    let serial := read_ULONG (SystemBuffer Request) off_SerialNo in
    (STATUS_SUCCESS, 0%N, filter (fun x => negb (t_serial x =? serial)%N) st)
|}.

(** A request structure of [n] bytes: two leading ULONGs and zero padding. *)
Definition request (n : nat) (size second : N) : WDFREQUEST :=
  {| SystemBuffer := firstn n (N_to_le 4 size ++ N_to_le 4 second
                               ++ repeat x00 n) |}.

Definition xusb1 : Target :=
  {| t_type := Xbox360Wired; t_serial := 1; t_user_index := 3;
     t_reports := 0; t_parked := 0 |}.

Definition ds4_7 : Target :=
  {| t_type := DualShock4Wired; t_serial := 7; t_user_index := 0;
     t_reports := 0; t_parked := 0 |}.

Definition plugged : list Target := [xusb1; ds4_7].

End Fixture.

(** ** The calls of a run *)

(** The call that a target-scoped case makes on the target it has found. *)
Definition target_call {B : Bus} (c : IOCTL) (pdo : PDO B)
  : option (Event B) :=
  match c with
  | IOCTL_XUSB_SUBMIT_REPORT | IOCTL_DS4_SUBMIT_REPORT =>
      Some (EvSubmitReport pdo)
  | IOCTL_XUSB_REQUEST_NOTIFICATION | IOCTL_DS4_REQUEST_NOTIFICATION =>
      Some (EvEnqueueNotification pdo)
  | IOCTL_XUSB_GET_USER_INDEX => Some (EvGetUserIndex pdo)
  | _ => None
  end.

(** What that call returns: the target's status and the bus state it
    leaves. *)
Definition target_result (B : Bus) (c : IOCTL) (pdo : PDO B)
  (Request : WDFREQUEST) (bus : BusState B) : option (NTSTATUS * BusState B) :=
  match c with
  | IOCTL_XUSB_SUBMIT_REPORT | IOCTL_DS4_SUBMIT_REPORT =>
      Some (SubmitReport B pdo (SystemBuffer Request) bus)
  | IOCTL_XUSB_REQUEST_NOTIFICATION | IOCTL_DS4_REQUEST_NOTIFICATION =>
      Some (EnqueueNotification B pdo Request bus)
  | IOCTL_XUSB_GET_USER_INDEX =>
      let '(status, _, bus') := GetUserIndex B pdo bus in Some (status, bus')
  | _ => None
  end.

(** The function behind the plug-in and the unplug case, and its event. *)
Definition registry_call (B : Bus) (c : IOCTL)
  : option (WDFREQUEST -> BusState B -> NTSTATUS * N * BusState B) :=
  match c with
  | IOCTL_VIGEM_PLUGIN_TARGET => Some (Bus_PlugInDevice B)
  | IOCTL_VIGEM_UNPLUG_TARGET => Some (Bus_UnPlugDevice B)
  | _ => None
  end.

Definition registry_event {B : Bus} (c : IOCTL) : option (Event B) :=
  match c with
  | IOCTL_VIGEM_PLUGIN_TARGET => Some EvPlugInDevice
  | IOCTL_VIGEM_UNPLUG_TARGET => Some EvUnPlugDevice
  | _ => None
  end.

(** The request is handed to a target or to plug-in/unplug. *)
Definition is_hand_over {B : Bus} (e : Event B) : bool :=
  match e with
  | EvSubmitReport _ | EvEnqueueNotification _ | EvGetUserIndex _
  | EvPlugInDevice | EvUnPlugDevice => true
  | _ => false
  end.

(** The target an event calls, if it calls one. *)
Definition called_pdo {B : Bus} (e : Event B) : option (PDO B) :=
  match e with
  | EvSubmitReport pdo | EvEnqueueNotification pdo | EvGetUserIndex pdo =>
      Some pdo
  | _ => None
  end.

Section Runs.

Variable hdr : Header.
Variable B : Bus.
Variable bus : BusState B.
Variable Request : WDFREQUEST.

(** The calls that a run of the switch can make, in order, when control
    reaches the case [c] ([None]: the default label): nothing; plug-in or
    unplug alone; the retrieval of the input structure alone; retrieval and a
    lookup that misses; retrieval, a lookup that hits and the call on the
    target found. *)
Inductive run_calls (c : option IOCTL) : list (Event B) -> Prop :=
| calls_none : run_calls c []
| calls_registry op e :
    c = Some op ->
    registry_event op = Some e ->
    run_calls c [e]
| calls_retrieve op s :
    c = Some op ->
    input_struct op = Some s ->
    run_calls c [EvRetrieveInputBuffer (sizeof hdr s)]
| calls_miss op s t :
    c = Some op ->
    input_struct op = Some s ->
    expected_type op = Some t ->
    retrieved hdr Request s = true ->
    SerialNo Request <> 0%N ->
    GetPdoByTypeAndSerial B bus t (SerialNo Request) = None ->
    run_calls c [ EvRetrieveInputBuffer (sizeof hdr s);
                  EvGetPdoByTypeAndSerial t (SerialNo Request) ]
| calls_hit op s t pdo e :
    c = Some op ->
    input_struct op = Some s ->
    expected_type op = Some t ->
    retrieved hdr Request s = true ->
    SerialNo Request <> 0%N ->
    GetPdoByTypeAndSerial B bus t (SerialNo Request) = Some pdo ->
    target_call op pdo = Some e ->
    run_calls c [ EvRetrieveInputBuffer (sizeof hdr s);
                  EvGetPdoByTypeAndSerial t (SerialNo Request);
                  e ].

(** The completion with which the handler ends, if it ends with one. *)
Definition epilogue (status : NTSTATUS) (length : N) : list (Event B) :=
  if (status =? STATUS_PENDING)%Z then []
  else [EvComplete status (Some length)].

End Runs.

(** * Properties of the dispatcher *)

Ltac unfold_dispatch :=
  unfold Dispatch, Bus_EvtIoDeviceControl, switch_IoControlCode,
    case_CHECK_VERSION, case_PLUGIN_TARGET, case_UNPLUG_TARGET,
    case_XUSB_SUBMIT_REPORT, case_XUSB_REQUEST_NOTIFICATION,
    case_DS4_SUBMIT_REPORT, case_DS4_REQUEST_NOTIFICATION,
    case_XUSB_GET_USER_INDEX,
    call_GetPdoByTypeAndSerial, call_SubmitReport, call_EnqueueNotification,
    call_GetUserIndex, call_Bus_PlugInDevice, call_Bus_UnPlugDevice,
    WdfRequestRetrieveInputBuffer, WdfRequestCompleteWithInformation,
    member, bind, ret, emit, status_init, length_init,
    status_of, length_of, bus_of, buffer_of, log_of.

Ltac simpl_world :=
  cbn [fst snd w_bus w_request w_log SystemBuffer app negb orb andb] in *.

(** One step of symbolic execution: split on the scrutinee of the first
    conditional or call result left in the goal. *)
Ltac split_step :=
  match goal with
  | |- context [match ?x with _ => _ end] =>
      lazymatch x with
      | context [match _ with _ => _ end] => fail
      | _ => let E := fresh "E" in destruct x eqn:E; simpl_world
      end
  end.

(** Enter the case of a target-scoped operation [c] and bring the hypotheses
    on its request into the goal, so that symbolic execution rewrites them
    along with the program. *)
Ltac unfold_contract :=
  unfold size_checks, output_fits in *;
  unfold retrieved, retrieved_length, Size, SerialNo, Version in *.

Ltac prop_of_bool :=
  repeat match goal with
  | H : (_ =? _)%Z = true |- _ => apply Z.eqb_eq in H
  | H : (_ =? _)%Z = false |- _ => apply Z.eqb_neq in H
  | H : (_ =? _)%N = true |- _ => apply N.eqb_eq in H
  | H : (_ =? _)%N = false |- _ => apply N.eqb_neq in H
  | H : (_ <? _)%N = true |- _ => apply N.ltb_lt in H
  | H : (_ <? _)%N = false |- _ => apply N.ltb_ge in H
  | H : (_ && _)%bool = true |- _ => apply andb_true_iff in H; destruct H
  | H : negb _ = true |- _ => apply negb_true_iff in H
  | H : negb _ = false |- _ => apply negb_false_iff in H
  end.

Ltac rewrite_retrieve :=
  match goal with
  | E : RetrieveInputBuffer _ _ = _ |- _ => rewrite E; simpl_world
  end.

(** ** ULONG members of a buffer *)

Lemma to_N_byte_of_N (n : N) : Byte.to_N (byte_of_N n) = (n mod 256)%N.
Proof.
  unfold byte_of_N.
  destruct (Byte.of_N (n mod 256)) as [b |] eqn:E.
  - now apply Byte.to_of_N.
  - apply Byte.of_N_None_iff in E.
    pose proof (N.mod_upper_bound n 256). lia.
Qed.

Lemma le_to_N_to_le (k : nat) (n : N) :
  le_to_N (N_to_le k n) = (n mod 256 ^ N.of_nat k)%N.
Proof.
  revert n. induction k as [| k IH]; intro n.
  - cbn. now rewrite N.mod_1_r.
  - cbn [N_to_le le_to_N]. rewrite to_N_byte_of_N, IH.
    rewrite Nat2N.inj_succ, N.pow_succ_r'.
    now rewrite N.Div0.mod_mul_r.
Qed.

Lemma length_N_to_le (k : nat) (n : N) : List.length (N_to_le k n) = k.
Proof.
  revert n. induction k as [| k IH]; intro n; cbn.
  - reflexivity.
  - now rewrite IH.
Qed.

(** Reading back a ULONG member that was just stored. *)
Lemma read_write_ULONG (p : list byte) (off : nat) (v : N) :
  (off <= List.length p)%nat ->
  (v < 2 ^ 32)%N ->
  read_ULONG (write_ULONG p off v) off = v.
Proof.
  intros Hoff Hv. unfold read_ULONG, write_ULONG.
  rewrite skipn_app, firstn_length_le by assumption.
  rewrite Nat.sub_diag, skipn_all2 by (rewrite firstn_length_le; auto).
  cbn [skipn app].
  rewrite firstn_app, length_N_to_le, Nat.sub_diag, firstn_O, app_nil_r.
  rewrite firstn_all2 by (rewrite length_N_to_le; auto).
  rewrite le_to_N_to_le. apply N.mod_small. exact Hv.
Qed.

(** A retrieved input buffer has the framework's success status and is at
    least as long as the structure asked for. *)
Lemma retrieved_success (hdr : Header) (Request : WDFREQUEST) (s : STRUCT) :
  retrieved hdr Request s = true ->
  RetrieveInputBuffer Request (sizeof hdr s)
    = (STATUS_SUCCESS, N.of_nat (List.length (SystemBuffer Request)))
  /\ (sizeof hdr s <= N.of_nat (List.length (SystemBuffer Request)))%N.
Proof.
  unfold retrieved, RetrieveInputBuffer.
  destruct (N.of_nat (List.length (SystemBuffer Request)) =? 0)%N;
    cbn [orb fst]; try discriminate.
  destruct (N.ltb_spec (N.of_nat (List.length (SystemBuffer Request)))
              (sizeof hdr s)); cbn [fst]; try discriminate.
  intros _. split; [reflexivity | assumption].
Qed.

(** ** Statuses *)

Lemma failure_is_not_pending (status : NTSTATUS) :
  NT_SUCCESS status = false -> status <> STATUS_PENDING.
Proof.
  intros H e. subst status. vm_compute in H. discriminate H.
Qed.

Section Properties.

Variable hdr : Header.
Variable B : Bus.

Lemma case_label_unknown (IoControlCode : N) :
  (forall c, IoControlCode <> CTL_CODE hdr c) ->
  case_label hdr IoControlCode = None.
Proof.
  intro H. unfold case_label, all_IOCTL. cbn [find].
  repeat match goal with
  | |- context [(IoControlCode =? CTL_CODE hdr ?c)%N] =>
      destruct (N.eqb_spec IoControlCode (CTL_CODE hdr c));
      [ exfalso; eapply H; eassumption | ]
  end.
  reflexivity.
Qed.

(** With pairwise distinct label values, as the compiler demands of a
    switch, each code selects its own case. *)
Lemma case_label_known (c : IOCTL) :
  NoDup (map (CTL_CODE hdr) all_IOCTL) ->
  case_label hdr (CTL_CODE hdr c) = Some c.
Proof.
  intro Hnd. unfold case_label.
  assert (Hin : In c all_IOCTL) by (destruct c; cbn; tauto).
  induction all_IOCTL as [| x l IH]; [contradiction |].
  cbn [find map] in *. inversion Hnd as [| ? ? Hx Hl]; subst.
  destruct (N.eqb_spec (CTL_CODE hdr c) (CTL_CODE hdr x)) as [e | ne].
  - destruct Hin as [-> | Hin]; [reflexivity |].
    exfalso. apply Hx. rewrite <- e. now apply in_map.
  - destruct Hin as [-> | Hin]; [congruence |]. now apply IH.
Qed.

(** The switch itself never completes the request: whatever case runs, the
    completions in the log are those that were there before. *)
Lemma switch_completes_nothing
  (OutputBufferLength InputBufferLength IoControlCode : N) (w : World B) :
  completions
    (w_log B (snd (switch_IoControlCode hdr B OutputBufferLength
                     InputBufferLength IoControlCode w)))
  = completions (w_log B w).
Proof.
  unfold_dispatch. simpl_world.
  repeat split_step.
  all: unfold completions; rewrite ?flat_map_app; cbn [flat_map app].
  all: now rewrite ?app_nil_r.
Qed.

(** The epilogue: one completion with the final locals, unless the status is
    STATUS_PENDING. *)
Lemma completion_rule
  (bus : BusState B) (Request : WDFREQUEST)
  (OutputBufferLength InputBufferLength IoControlCode : N) :
  let r := Dispatch hdr B bus Request
             OutputBufferLength InputBufferLength IoControlCode in
  completions (log_of r) =
    if (status_of r =? STATUS_PENDING)%Z then []
    else [(status_of r, Some (length_of r))].
Proof.
  unfold Dispatch, Bus_EvtIoDeviceControl, bind, status_of, length_of, log_of.
  pose proof (switch_completes_nothing OutputBufferLength InputBufferLength
                IoControlCode (mkWorld B bus Request [])) as Hsw.
  destruct (switch_IoControlCode hdr B OutputBufferLength InputBufferLength
              IoControlCode (mkWorld B bus Request [])) as [[status length] w].
  cbn [snd w_log] in Hsw. cbn [completions flat_map] in Hsw.
  destruct (status =? STATUS_PENDING)%Z eqn:E; simpl_world.
  - unfold ret. simpl_world. rewrite E. exact Hsw.
  - unfold WdfRequestCompleteWithInformation, emit, ret. simpl_world.
    rewrite E. unfold completions in *. rewrite flat_map_app, Hsw.
    reflexivity.
Qed.

(** C10: the dispatcher itself completes the request, once and with the final
    status and length, exactly when the final status is not STATUS_PENDING;
    when it is STATUS_PENDING the dispatcher completes nothing. *)
Theorem completes_once_unless_pending
  (bus : BusState B) (Request : WDFREQUEST)
  (OutputBufferLength InputBufferLength IoControlCode : N) :
  let r := Dispatch hdr B bus Request
             OutputBufferLength InputBufferLength IoControlCode in
  (status_of r <> STATUS_PENDING <->
   completions (log_of r) = [(status_of r, Some (length_of r))])
  /\ (status_of r = STATUS_PENDING <-> completions (log_of r) = []).
Proof.
  intro r. pose proof (completion_rule bus Request OutputBufferLength
                         InputBufferLength IoControlCode) as H.
  fold r in H. cbv zeta in H. rewrite H.
  destruct (Z.eqb_spec (status_of r) STATUS_PENDING) as [e | ne].
  - repeat split; intros; try congruence; try discriminate.
  - repeat split; intros; try congruence; try discriminate.
Qed.

(** C7: a control code that is none of the eight known ones gets
    STATUS_INVALID_PARAMETER; the only thing the dispatcher does is complete
    the request, and the bus is left as it was. *)
Theorem unknown_code_invalid_parameter
  (bus : BusState B) (Request : WDFREQUEST)
  (OutputBufferLength InputBufferLength IoControlCode : N) :
  (forall c, IoControlCode <> CTL_CODE hdr c) ->
  let r := Dispatch hdr B bus Request
             OutputBufferLength InputBufferLength IoControlCode in
  status_of r = STATUS_INVALID_PARAMETER
  /\ log_of r = [EvComplete STATUS_INVALID_PARAMETER (Some 0%N)]
  /\ existsb is_bus_action (log_of r) = false
  /\ bus_of r = bus.
Proof.
  intros H r. subst r. apply case_label_unknown in H.
  unfold_dispatch. rewrite H. simpl_world. repeat split.
Qed.

(** C5: a notification request (XUSB or DS4) whose output capacity is below
    the size of its structure is rejected with STATUS_INVALID_PARAMETER before
    the input buffer is retrieved and before any lookup, whatever the bus
    holds. *)
Theorem small_output_rejected_first
  (bus : BusState B) (Request : WDFREQUEST)
  (OutputBufferLength InputBufferLength IoControlCode : N)
  (c : IOCTL) (s : STRUCT) :
  case_label hdr IoControlCode = Some c ->
  is_request_notification c = true ->
  input_struct c = Some s ->
  (OutputBufferLength < sizeof hdr s)%N ->
  let r := Dispatch hdr B bus Request
             OutputBufferLength InputBufferLength IoControlCode in
  status_of r = STATUS_INVALID_PARAMETER
  /\ log_of r = [EvComplete STATUS_INVALID_PARAMETER (Some 0%N)]
  /\ retrievals (log_of r) = []
  /\ lookups (log_of r) = []
  /\ bus_of r = bus.
Proof.
  intros Hc Hn Hs Hlt r. subst r.
  apply N.ltb_lt in Hlt.
  unfold_dispatch. rewrite Hc.
  destruct c; try discriminate Hn; injection Hs as <-;
    rewrite Hlt; simpl_world; repeat split.
Qed.

(** C3: for a version check whose input buffer is retrieved with exactly the
    length of the structure, the status is STATUS_SUCCESS if and only if the
    declared version is the compiled one, and STATUS_NOT_SUPPORTED for every
    other version. *)
Theorem check_version_exact_match
  (bus : BusState B) (Request : WDFREQUEST)
  (OutputBufferLength InputBufferLength IoControlCode : N) :
  case_label hdr IoControlCode = Some IOCTL_VIGEM_CHECK_VERSION ->
  retrieved hdr Request VIGEM_CHECK_VERSION = true ->
  retrieved_length hdr Request VIGEM_CHECK_VERSION
    = sizeof hdr VIGEM_CHECK_VERSION ->
  let r := Dispatch hdr B bus Request
             OutputBufferLength InputBufferLength IoControlCode in
  (status_of r = STATUS_SUCCESS <-> Version Request = VIGEM_COMMON_VERSION hdr)
  /\ (Version Request <> VIGEM_COMMON_VERSION hdr ->
      status_of r = STATUS_NOT_SUPPORTED).
Proof.
  intros Hc Hok Hlen r. subst r.
  unfold retrieved, retrieved_length, Version in *.
  unfold_dispatch. rewrite Hc. simpl_world.
  destruct (RetrieveInputBuffer Request (sizeof hdr VIGEM_CHECK_VERSION))
    as [st len]. simpl_world. subst len.
  rewrite Hok, N.eqb_refl. simpl_world.
  destruct (N.eqb_spec (read_ULONG (SystemBuffer Request) off_Version)
              (VIGEM_COMMON_VERSION hdr)) as [e | ne]; simpl_world.
  - split; [split; intros _ |].
    + exact e.
    + reflexivity.
    + intro ne. elim ne. exact e.
  - split; [split; intro H |].
    + discriminate H.
    + elim ne. exact H.
    + reflexivity.
Qed.

(** C2: a target-scoped request (XUSB or DS4 submit, XUSB or DS4
    notification, user index) whose input passes the size checks and whose
    serial is 0 gets STATUS_INVALID_PARAMETER, and no lookup is made. *)
Theorem zero_serial_rejected
  (bus : BusState B) (Request : WDFREQUEST)
  (OutputBufferLength InputBufferLength IoControlCode : N)
  (c : IOCTL) (t : VIGEM_TARGET_TYPE) (s : STRUCT) :
  case_label hdr IoControlCode = Some c ->
  expected_type c = Some t ->
  input_struct c = Some s ->
  retrieved hdr Request s = true ->
  size_checks hdr Request InputBufferLength s = true ->
  SerialNo Request = 0%N ->
  let r := Dispatch hdr B bus Request
             OutputBufferLength InputBufferLength IoControlCode in
  status_of r = STATUS_INVALID_PARAMETER
  /\ lookups (log_of r) = []
  /\ bus_of r = bus.
Proof.
  intros Hc Ht Hs Hok Hsz Hser r. subst r.
  unfold_contract. unfold_dispatch. rewrite Hc.
  destruct c; try discriminate Ht; injection Hs as <-; clear Ht.
  all: revert Hok Hsz Hser; simpl_world.
  all: repeat split_step; intros.
  all: try (split; [reflexivity | split; reflexivity]).
  all: prop_of_bool; try congruence; try discriminate.
Qed.

(** C4: a target-scoped request with validated input and a non-zero serial
    makes exactly one lookup, under the type its operation expects and the
    request's serial; when that lookup misses, the status is
    STATUS_DEVICE_DOES_NOT_EXIST and nothing else is looked up or called. *)
Theorem lookup_expected_type_only
  (bus : BusState B) (Request : WDFREQUEST)
  (OutputBufferLength InputBufferLength IoControlCode : N)
  (c : IOCTL) (t : VIGEM_TARGET_TYPE) (s : STRUCT) :
  case_label hdr IoControlCode = Some c ->
  expected_type c = Some t ->
  input_struct c = Some s ->
  output_fits hdr OutputBufferLength c s = true ->
  retrieved hdr Request s = true ->
  size_checks hdr Request InputBufferLength s = true ->
  SerialNo Request <> 0%N ->
  let r := Dispatch hdr B bus Request
             OutputBufferLength InputBufferLength IoControlCode in
  lookups (log_of r) = [(t, SerialNo Request)]
  /\ (GetPdoByTypeAndSerial B bus t (SerialNo Request) = None ->
      status_of r = STATUS_DEVICE_DOES_NOT_EXIST
      /\ log_of r
         = [ EvRetrieveInputBuffer (sizeof hdr s);
             EvGetPdoByTypeAndSerial t (SerialNo Request);
             EvComplete STATUS_DEVICE_DOES_NOT_EXIST
               (Some (retrieved_length hdr Request s)) ]
      /\ bus_of r = bus).
Proof.
  intros Hc Ht Hs Hout Hok Hsz Hser r. subst r.
  unfold_contract. unfold_dispatch. rewrite Hc.
  destruct c; try discriminate Ht; injection Hs as <-; injection Ht as <-.
  all: cbn [expects_output] in Hout.
  all: revert Hout Hok Hsz Hser; simpl_world.
  all: repeat split_step; intros.
  all: prop_of_bool; try congruence; try discriminate.
  all: split; [reflexivity | intro Hmiss; try discriminate Hmiss].
  all: repeat split.
Qed.

(** C6: for a notification request (XUSB or DS4) that passes validation and
    finds its target, a successful EnqueueNotification makes the dispatcher end
    with STATUS_PENDING and complete nothing; a failing one has its own status
    returned, which is not STATUS_PENDING, and the request is completed with
    it. *)
Theorem notification_pending_or_error
  (bus : BusState B) (Request : WDFREQUEST)
  (OutputBufferLength InputBufferLength IoControlCode : N)
  (c : IOCTL) (t : VIGEM_TARGET_TYPE) (s : STRUCT) (pdo : PDO B) :
  case_label hdr IoControlCode = Some c ->
  is_request_notification c = true ->
  expected_type c = Some t ->
  input_struct c = Some s ->
  output_fits hdr OutputBufferLength c s = true ->
  retrieved hdr Request s = true ->
  size_checks hdr Request InputBufferLength s = true ->
  SerialNo Request <> 0%N ->
  GetPdoByTypeAndSerial B bus t (SerialNo Request) = Some pdo ->
  let enqueued := fst (EnqueueNotification B pdo Request bus) in
  let r := Dispatch hdr B bus Request
             OutputBufferLength InputBufferLength IoControlCode in
  (NT_SUCCESS enqueued = true ->
   status_of r = STATUS_PENDING /\ completions (log_of r) = [])
  /\ (NT_SUCCESS enqueued = false ->
      status_of r = enqueued
      /\ enqueued <> STATUS_PENDING
      /\ completions (log_of r) = [(enqueued, Some (length_of r))]).
Proof.
  intros Hc Hn Ht Hs Hout Hok Hsz Hser Hpdo enqueued r. subst enqueued r.
  unfold_contract. unfold_dispatch. rewrite Hc.
  destruct c; try discriminate Hn; injection Hs as <-; injection Ht as <-.
  all: cbn [expects_output] in Hout.
  all: revert Hout Hok Hsz Hser Hpdo; simpl_world.
  all: repeat split_step; intros.
  all: prop_of_bool; try congruence; try discriminate.
  all: match goal with H : Some _ = Some _ |- _ => injection H as -> end.
  all: match goal with
       | E : EnqueueNotification _ _ _ _ = _ |- _ => rewrite E
       end.
  all: cbn [completions flat_map app fst].
  all: split; intro Hs; try congruence.
  all: try (split; reflexivity).
  all: pose proof (failure_is_not_pending _ Hs) as Hnp.
  all: prop_of_bool; try contradiction.
  all: repeat split; assumption.
Qed.

(** C9: the user-index request goes to the XUSB target type only.  With
    enough output capacity, valid size checks and a non-zero serial the one
    lookup made is under Xbox360Wired; a miss gives
    STATUS_DEVICE_DOES_NOT_EXIST and leaves the structure alone; on a hit the
    target's user index ends up in the [UserIndex] member of the structure
    handed back.  The target's side of the call is [XusbGetUserIndex]. *)
Theorem get_user_index_xusb_only
  (bus : BusState B) (Request : WDFREQUEST)
  (OutputBufferLength InputBufferLength IoControlCode : N)
  (UserIndex : BusState B -> PDO B -> N) :
  case_label hdr IoControlCode = Some IOCTL_XUSB_GET_USER_INDEX ->
  (forall pdo st,
     GetUserIndex B pdo st = XusbGetUserIndex (UserIndex st pdo) st) ->
  (forall pdo st, (UserIndex st pdo < 2 ^ 32)%N) ->
  (12 <= sizeof hdr XUSB_GET_USER_INDEX)%N ->
  (sizeof hdr XUSB_GET_USER_INDEX <= OutputBufferLength)%N ->
  retrieved hdr Request XUSB_GET_USER_INDEX = true ->
  size_checks hdr Request InputBufferLength XUSB_GET_USER_INDEX = true ->
  SerialNo Request <> 0%N ->
  let r := Dispatch hdr B bus Request
             OutputBufferLength InputBufferLength IoControlCode in
  lookups (log_of r) = [(Xbox360Wired, SerialNo Request)]
  /\ match GetPdoByTypeAndSerial B bus Xbox360Wired (SerialNo Request) with
     | None =>
         status_of r = STATUS_DEVICE_DOES_NOT_EXIST
         /\ buffer_of r = SystemBuffer Request
     | Some pdo =>
         status_of r = STATUS_SUCCESS
         /\ read_ULONG (buffer_of r) off_UserIndex = UserIndex bus pdo
         /\ bus_of r = bus
     end.
Proof.
  intros Hc Hspec Hbound H12 Hout Hok Hsz Hser r. subst r.
  destruct (retrieved_success _ _ _ Hok) as [_ Hlen].
  apply N.ltb_ge in Hout.
  unfold_contract. unfold_dispatch. rewrite Hc, Hout.
  revert Hok Hsz Hser; simpl_world.
  repeat split_step; intros.
  all: prop_of_bool; try congruence; try discriminate.
  all: try match goal with
       | E : GetUserIndex _ _ _ = _ |- _ =>
           rewrite Hspec in E; unfold XusbGetUserIndex in E;
           first [ discriminate E | injection E as <- <- <- ]
       end.
  all: try match goal with
       | E : (STATUS_SUCCESS =? STATUS_PENDING)%Z = true |- _ =>
           discriminate E
       end.
  all: repeat split.
  all: apply read_write_ULONG; [unfold off_UserIndex; lia | apply Hbound].
Qed.

Lemma invalid_request_frame
  (bus : BusState B) (Request : WDFREQUEST)
  (OutputBufferLength InputBufferLength IoControlCode : N) :
  validation_fails hdr Request
    OutputBufferLength InputBufferLength IoControlCode = true ->
  let r := Dispatch hdr B bus Request
             OutputBufferLength InputBufferLength IoControlCode in
  bus_of r = bus
  /\ existsb is_bus_action (log_of r) = false
  /\ buffer_of r = SystemBuffer Request.
Proof.
  intros H r. subst r. unfold validation_fails in H.
  destruct (case_label hdr IoControlCode) as [c |] eqn:Hc.
  - destruct c; cbn [input_struct expected_type] in H; try discriminate H.
    all: unfold_contract; cbn [expects_output] in H.
    all: unfold_dispatch; rewrite Hc; revert H; simpl_world.
    all: repeat split_step; intros.
    all: try (repeat split; reflexivity).
    all: discriminate.
  - unfold_dispatch. rewrite Hc. simpl_world. repeat split.
Qed.

(** C8: a request that fails one of the dispatcher's validation checks leaves
    the bus state as it was and reaches neither the registry nor a target;
    dispatching it again any number of times still leaves the state as it
    was. *)
Theorem invalid_request_changes_nothing
  (bus : BusState B) (Request : WDFREQUEST)
  (OutputBufferLength InputBufferLength IoControlCode : N) :
  validation_fails hdr Request
    OutputBufferLength InputBufferLength IoControlCode = true ->
  let r := Dispatch hdr B bus Request
             OutputBufferLength InputBufferLength IoControlCode in
  bus_of r = bus
  /\ existsb is_bus_action (log_of r) = false
  /\ forall n : nat,
       redispatch hdr B Request
         OutputBufferLength InputBufferLength IoControlCode n bus = bus.
Proof.
  intros H r. subst r.
  destruct (invalid_request_frame bus Request _ _ _ H) as (Hbus & Hlog & _).
  repeat split; try assumption.
  induction n as [| n IH]; [reflexivity |].
  cbn [redispatch]. rewrite Hbus. exact IH.
Qed.

(** Where the size checks of a target-scoped request fail after the input
    buffer was retrieved, no branch assigns [status] again: the request is
    completed with the framework's STATUS_SUCCESS and the retrieved length. *)
Lemma size_mismatch_keeps_retrieve_status
  (bus : BusState B) (Request : WDFREQUEST)
  (OutputBufferLength InputBufferLength IoControlCode : N)
  (c : IOCTL) (t : VIGEM_TARGET_TYPE) (s : STRUCT) :
  case_label hdr IoControlCode = Some c ->
  expected_type c = Some t ->
  input_struct c = Some s ->
  output_fits hdr OutputBufferLength c s = true ->
  retrieved hdr Request s = true ->
  size_checks hdr Request InputBufferLength s = false ->
  let r := Dispatch hdr B bus Request
             OutputBufferLength InputBufferLength IoControlCode in
  status_of r = STATUS_SUCCESS
  /\ log_of r
     = [ EvRetrieveInputBuffer (sizeof hdr s);
         EvComplete STATUS_SUCCESS
           (Some (N.of_nat (List.length (SystemBuffer Request)))) ]
  /\ bus_of r = bus.
Proof.
  intros Hc Ht Hs Hout Hok Hsz r. subst r.
  destruct (retrieved_success _ _ _ Hok) as [HR _].
  unfold_contract. unfold_dispatch. rewrite Hc.
  destruct c; try discriminate Ht; injection Hs as <-; clear Ht.
  all: cbn [expects_output] in Hout.
  all: revert Hout Hok Hsz; simpl_world.
  all: repeat split_step; intros.
  all: try discriminate.
  all: try match goal with
       | E : (_, _) = (STATUS_SUCCESS, _) |- _ => injection E as -> ->
       end.
  all: try (repeat split; reflexivity).
  all: try discriminate; try congruence.
Qed.

End Properties.

(** ** The dispatcher run on concrete requests *)

Example fixture_labels_distinct :
  NoDup (map (CTL_CODE Fixture.header) all_IOCTL).
Proof.
  repeat constructor; cbn; intuition discriminate.
Qed.

(** A report for a plugged target is applied; one for a serial that was never
    plugged in gets STATUS_DEVICE_DOES_NOT_EXIST. *)
Example submit_report_scenario :
  let run serial :=
    Dispatch Fixture.header Fixture.bus Fixture.plugged
      (Fixture.request 20 20 serial) 0 20
      (CTL_CODE Fixture.header IOCTL_XUSB_SUBMIT_REPORT) in
  status_of (run 1%N) = STATUS_SUCCESS
  /\ map Fixture.t_reports (bus_of (run 1%N)) = [1; 0]%nat
  /\ status_of (run 2%N) = STATUS_DEVICE_DOES_NOT_EXIST
  /\ bus_of (run 2%N) = Fixture.plugged.
Proof.
  repeat split.
Qed.

(** [Bus_EvtIoDefault] completes whatever it gets with
    STATUS_INVALID_DEVICE_REQUEST. *)
Example default_handler_completes :
  w_log Fixture.bus
    (snd (Bus_EvtIoDefault Fixture.bus
            (mkWorld Fixture.bus Fixture.plugged (Fixture.request 8 8 1) [])))
  = [EvComplete STATUS_INVALID_DEVICE_REQUEST None].
Proof.
  reflexivity.
Qed.

Open Scope N_scope.

(** C1: an XUSB submit-report request of 20 bytes whose [Size] member says 19
    is retrieved successfully and fails the size check, yet the dispatcher
    completes it with STATUS_SUCCESS and 20 bytes of information rather than
    with STATUS_INVALID_PARAMETER; the same happens to a notification request
    and to a user-index request with a wrong [Size]. *)
Theorem size_mismatch_completed_with_success :
  let run Request Out In c :=
    Dispatch Fixture.header Fixture.bus Fixture.plugged Request Out In
      (CTL_CODE Fixture.header c) in
  let submit := Fixture.request 20 19 1 in
  let notify := Fixture.request 12 16 7 in
  let index := Fixture.request 12 8 1 in
  (retrieved Fixture.header submit XUSB_SUBMIT_REPORT = true
   /\ size_checks Fixture.header submit 20 XUSB_SUBMIT_REPORT = false
   /\ status_of (run submit 0 20 IOCTL_XUSB_SUBMIT_REPORT) = STATUS_SUCCESS
   /\ completions (log_of (run submit 0 20 IOCTL_XUSB_SUBMIT_REPORT))
      = [(STATUS_SUCCESS, Some 20)])
  /\ (retrieved Fixture.header notify DS4_REQUEST_NOTIFICATION = true
      /\ size_checks Fixture.header notify 12 DS4_REQUEST_NOTIFICATION = false
      /\ status_of (run notify 12 12 IOCTL_DS4_REQUEST_NOTIFICATION)
         = STATUS_SUCCESS)
  /\ (retrieved Fixture.header index XUSB_GET_USER_INDEX = true
      /\ size_checks Fixture.header index 12 XUSB_GET_USER_INDEX = false
      /\ status_of (run index 12 12 IOCTL_XUSB_GET_USER_INDEX)
         = STATUS_SUCCESS)
  /\ STATUS_SUCCESS <> STATUS_INVALID_PARAMETER.
Proof.
  cbv zeta. repeat split; try (vm_compute; reflexivity). discriminate.
Qed.

Lemma zero_serial_rejected_witness :
  let r := Dispatch Fixture.header Fixture.bus Fixture.plugged
             (Fixture.request 20 20 0) 0 20
             (CTL_CODE Fixture.header IOCTL_XUSB_SUBMIT_REPORT) in
  status_of r = STATUS_INVALID_PARAMETER
  /\ lookups (log_of r) = []
  /\ bus_of r = Fixture.plugged.
Proof.
  apply (zero_serial_rejected Fixture.header Fixture.bus Fixture.plugged
           (Fixture.request 20 20 0) 0 20
           (CTL_CODE Fixture.header IOCTL_XUSB_SUBMIT_REPORT)
           IOCTL_XUSB_SUBMIT_REPORT Xbox360Wired XUSB_SUBMIT_REPORT);
    reflexivity.
Defined.

Lemma check_version_exact_match_witness :
  let Request := Fixture.request 8 8 1 in
  let r := Dispatch Fixture.header Fixture.bus Fixture.plugged Request 0 8
             (CTL_CODE Fixture.header IOCTL_VIGEM_CHECK_VERSION) in
  (status_of r = STATUS_SUCCESS
   <-> Version Request = VIGEM_COMMON_VERSION Fixture.header)
  /\ (Version Request <> VIGEM_COMMON_VERSION Fixture.header ->
      status_of r = STATUS_NOT_SUPPORTED).
Proof.
  apply (check_version_exact_match Fixture.header Fixture.bus Fixture.plugged
           (Fixture.request 8 8 1) 0 8
           (CTL_CODE Fixture.header IOCTL_VIGEM_CHECK_VERSION));
    reflexivity.
Defined.

Lemma lookup_expected_type_only_witness :
  let Request := Fixture.request 20 20 2 in
  let r := Dispatch Fixture.header Fixture.bus Fixture.plugged Request 0 20
             (CTL_CODE Fixture.header IOCTL_DS4_SUBMIT_REPORT) in
  lookups (log_of r) = [(DualShock4Wired, 2)]
  /\ status_of r = STATUS_DEVICE_DOES_NOT_EXIST.
Proof.
  destruct (lookup_expected_type_only Fixture.header Fixture.bus
              Fixture.plugged (Fixture.request 20 20 2) 0 20
              (CTL_CODE Fixture.header IOCTL_DS4_SUBMIT_REPORT)
              IOCTL_DS4_SUBMIT_REPORT DualShock4Wired DS4_SUBMIT_REPORT)
    as [Hlookups Hmiss]; try reflexivity.
  - discriminate.
  - split; [exact Hlookups | apply Hmiss; reflexivity].
Defined.

Lemma small_output_rejected_first_witness :
  let r := Dispatch Fixture.header Fixture.bus Fixture.plugged
             (Fixture.request 12 12 7) 4 12
             (CTL_CODE Fixture.header IOCTL_DS4_REQUEST_NOTIFICATION) in
  status_of r = STATUS_INVALID_PARAMETER
  /\ log_of r = [EvComplete STATUS_INVALID_PARAMETER (Some 0)]
  /\ retrievals (log_of r) = []
  /\ lookups (log_of r) = []
  /\ bus_of r = Fixture.plugged.
Proof.
  apply (small_output_rejected_first Fixture.header Fixture.bus
           Fixture.plugged (Fixture.request 12 12 7) 4 12
           (CTL_CODE Fixture.header IOCTL_DS4_REQUEST_NOTIFICATION)
           IOCTL_DS4_REQUEST_NOTIFICATION DS4_REQUEST_NOTIFICATION);
    reflexivity.
Defined.

Lemma notification_pending_or_error_witness :
  let r := Dispatch Fixture.header Fixture.bus Fixture.plugged
             (Fixture.request 12 12 7) 12 12
             (CTL_CODE Fixture.header IOCTL_DS4_REQUEST_NOTIFICATION) in
  status_of r = STATUS_PENDING /\ completions (log_of r) = [].
Proof.
  destruct (notification_pending_or_error Fixture.header Fixture.bus
              Fixture.plugged (Fixture.request 12 12 7) 12 12
              (CTL_CODE Fixture.header IOCTL_DS4_REQUEST_NOTIFICATION)
              IOCTL_DS4_REQUEST_NOTIFICATION DualShock4Wired
              DS4_REQUEST_NOTIFICATION (DualShock4Wired, 7))
    as [Hpending _]; try reflexivity.
  - discriminate.
  - apply Hpending. reflexivity.
Defined.

Lemma unknown_code_invalid_parameter_witness :
  let r := Dispatch Fixture.header Fixture.bus Fixture.plugged
             (Fixture.request 8 8 1) 8 8 0x2AA000 in
  status_of r = STATUS_INVALID_PARAMETER
  /\ log_of r = [EvComplete STATUS_INVALID_PARAMETER (Some 0)]
  /\ existsb is_bus_action (log_of r) = false
  /\ bus_of r = Fixture.plugged.
Proof.
  apply (unknown_code_invalid_parameter Fixture.header Fixture.bus
           Fixture.plugged (Fixture.request 8 8 1) 8 8 0x2AA000).
  intro c; destruct c; discriminate.
Defined.

Lemma invalid_request_changes_nothing_witness :
  let r := Dispatch Fixture.header Fixture.bus Fixture.plugged
             (Fixture.request 20 19 1) 0 20
             (CTL_CODE Fixture.header IOCTL_XUSB_SUBMIT_REPORT) in
  bus_of r = Fixture.plugged
  /\ existsb is_bus_action (log_of r) = false
  /\ forall n : nat,
       redispatch Fixture.header Fixture.bus (Fixture.request 20 19 1) 0 20
         (CTL_CODE Fixture.header IOCTL_XUSB_SUBMIT_REPORT) n Fixture.plugged
       = Fixture.plugged.
Proof.
  apply (invalid_request_changes_nothing Fixture.header Fixture.bus
           Fixture.plugged (Fixture.request 20 19 1) 0 20
           (CTL_CODE Fixture.header IOCTL_XUSB_SUBMIT_REPORT)).
  reflexivity.
Defined.

Lemma get_user_index_xusb_only_witness :
  let r := Dispatch Fixture.header Fixture.bus Fixture.plugged
             (Fixture.request 12 12 1) 12 12
             (CTL_CODE Fixture.header IOCTL_XUSB_GET_USER_INDEX) in
  lookups (log_of r) = [(Xbox360Wired, 1)]
  /\ status_of r = STATUS_SUCCESS
  /\ read_ULONG (buffer_of r) off_UserIndex = 3.
Proof.
  destruct (get_user_index_xusb_only Fixture.header Fixture.bus
              Fixture.plugged (Fixture.request 12 12 1) 12 12
              (CTL_CODE Fixture.header IOCTL_XUSB_GET_USER_INDEX)
              Fixture.user_index)
    as [Hlookups Hhit]; try reflexivity.
  - intros pdo st. unfold Fixture.user_index.
    destruct (find _ st); [apply N.mod_lt; discriminate | reflexivity].
  - vm_compute; discriminate.
  - split; [exact Hlookups |].
    destruct Hhit as (Hstatus & Hindex & _). split; assumption.
Defined.

Close Scope N_scope.

(** * The shape of every run *)

Section Runs_properties.

Variable hdr : Header.
Variable B : Bus.

(** Every run makes the calls of one of the shapes of [run_calls] and then
    completes the request, unless it ends pending. *)
Lemma run_shape
  (bus : BusState B) (Request : WDFREQUEST)
  (OutputBufferLength InputBufferLength IoControlCode : N) :
  let r := Dispatch hdr B bus Request
             OutputBufferLength InputBufferLength IoControlCode in
  exists calls,
    run_calls hdr B bus Request (case_label hdr IoControlCode) calls
    /\ log_of r = calls ++ epilogue B (status_of r) (length_of r).
Proof.
  unfold_dispatch. unfold epilogue. simpl_world.
  repeat split_step.
  all: try discriminate.
  all: try match goal with
       | H : (?a =? ?b)%Z = _ |- _ =>
           is_ground a; is_ground b; now vm_compute in H
       end.
  all: lazymatch goal with
       | |- exists calls, _ /\ ?L = calls ++ ?T =>
           lazymatch T with
           | [] => exists L
           | [_] => let c := eval cbn [removelast] in (removelast L) in exists c
           end
       end; (split; [| reflexivity ]).
  all: prop_of_bool.
  all: try (econstructor; reflexivity).
  all: first [ eapply calls_hit | eapply calls_miss ]; try reflexivity.
  all: try (unfold retrieved; rewrite_retrieve).
  all: assumption.
Qed.

Lemma lookups_app (l1 l2 : list (Event B)) :
  lookups (l1 ++ l2) = lookups l1 ++ lookups l2.
Proof.
  apply flat_map_app.
Qed.

Lemma retrievals_app (l1 l2 : list (Event B)) :
  retrievals (l1 ++ l2) = retrievals l1 ++ retrievals l2.
Proof.
  apply flat_map_app.
Qed.

Lemma completions_app (l1 l2 : list (Event B)) :
  completions (l1 ++ l2) = completions l1 ++ completions l2.
Proof.
  apply flat_map_app.
Qed.

Lemma epilogue_cases (status : NTSTATUS) (length : N) :
  (status = STATUS_PENDING /\ epilogue B status length = [])
  \/ (status <> STATUS_PENDING
      /\ epilogue B status length = [EvComplete status (Some length)]).
Proof.
  unfold epilogue. destruct (Z.eqb_spec status STATUS_PENDING); auto.
Qed.

(** A registry or target event is neither a retrieval, a lookup nor a
    completion. *)
Lemma registry_event_kind (op : IOCTL) (e : Event B) :
  registry_event op = Some e ->
  lookups [e] = [] /\ retrievals [e] = [] /\ completions [e] = []
  /\ called_pdo e = None.
Proof.
  destruct op; cbn; intro H; try discriminate H; injection H as <-;
    repeat split.
Qed.

Lemma target_call_kind (op : IOCTL) (pdo : PDO B) (e : Event B) :
  target_call op pdo = Some e ->
  lookups [e] = [] /\ retrievals [e] = [] /\ completions [e] = []
  /\ called_pdo e = Some pdo.
Proof.
  destruct op; cbn; intro H; try discriminate H; injection H as <-;
    repeat split.
Qed.

Ltac invert_calls H :=
  inversion H as
    [ | op e Hop Hev | op s Hop Hs | op s t Hop Hs Ht Hok Hser Hmiss
      | op s t pdo e Hop Hs Ht Hok Hser Hhit Hcall ];
  subst;
  try match goal with
      | Hev : registry_event _ = Some _ |- _ =>
          destruct (registry_event_kind _ _ Hev) as (Hlk & Hrt & Hcp & Hpdo)
      end;
  try match goal with
      | Hcall : target_call _ _ = Some _ |- _ =>
          destruct (target_call_kind _ _ _ Hcall) as (Hlk & Hrt & Hcp & Hpdo)
      end.

(** X7: the registry is asked at most once per request, and only with the
    serial of the request's structure, which is then not 0, and under the type
    that the request's control code expects. *)
Theorem lookup_uses_request_serial
  (bus : BusState B) (Request : WDFREQUEST)
  (OutputBufferLength InputBufferLength IoControlCode : N) :
  let r := Dispatch hdr B bus Request
             OutputBufferLength InputBufferLength IoControlCode in
  (List.length (lookups (log_of r)) <= 1)%nat
  /\ forall t serial,
       In (t, serial) (lookups (log_of r)) ->
       serial = SerialNo Request
       /\ serial <> 0%N
       /\ exists c, case_label hdr IoControlCode = Some c
                    /\ expected_type c = Some t.
Proof.
  intro r. destruct (run_shape bus Request OutputBufferLength
                       InputBufferLength IoControlCode) as (calls & Hc & Hlog).
  fold r in Hlog. rewrite Hlog, lookups_app.
  assert (He : lookups (epilogue B (status_of r) (length_of r)) = []).
  { destruct (epilogue_cases (status_of r) (length_of r)) as [[_ ->] | [_ ->]];
      reflexivity. }
  rewrite He, app_nil_r.
  invert_calls Hc.
  - split; [cbn; lia | intros ? ? []].
  - rewrite Hlk. cbn. split; [lia | intros ? ? []].
  - split; [cbn; lia | intros ? ? []].
  - cbn. split; [lia |].
    intros t' serial [Heq | []]. injection Heq as <- <-.
    repeat split; eauto.
  - change [EvRetrieveInputBuffer (sizeof hdr s);
            EvGetPdoByTypeAndSerial t (SerialNo Request); e]
      with ([EvRetrieveInputBuffer (sizeof hdr s);
             EvGetPdoByTypeAndSerial t (SerialNo Request)] ++ [e]).
    rewrite lookups_app, Hlk. cbn. split; [lia |].
    intros t' serial [Heq | []]. injection Heq as <- <-.
    repeat split; eauto.
Qed.

(** X8: a target is only ever called when the lookup under the type that
    the control code expects, with the request's serial, has returned that
    very target; in particular [GetUserIndex], which the handler reaches
    through a cast to the XUSB class, is only called on a target found under
    Xbox360Wired. *)
Theorem target_called_as_found
  (bus : BusState B) (Request : WDFREQUEST)
  (OutputBufferLength InputBufferLength IoControlCode : N) :
  let r := Dispatch hdr B bus Request
             OutputBufferLength InputBufferLength IoControlCode in
  (forall e pdo,
     In e (log_of r) ->
     called_pdo e = Some pdo ->
     exists c t,
       case_label hdr IoControlCode = Some c
       /\ expected_type c = Some t
       /\ GetPdoByTypeAndSerial B bus t (SerialNo Request) = Some pdo
       /\ target_call c pdo = Some e)
  /\ (forall pdo,
        In (EvGetUserIndex pdo) (log_of r) ->
        GetPdoByTypeAndSerial B bus Xbox360Wired (SerialNo Request)
        = Some pdo).
Proof.
  intro r.
  assert (Hall : forall e pdo,
     In e (log_of r) ->
     called_pdo e = Some pdo ->
     exists c t,
       case_label hdr IoControlCode = Some c
       /\ expected_type c = Some t
       /\ GetPdoByTypeAndSerial B bus t (SerialNo Request) = Some pdo
       /\ target_call c pdo = Some e).
  { destruct (run_shape bus Request OutputBufferLength
                InputBufferLength IoControlCode) as (calls & Hc & Hlog).
    fold r in Hlog. rewrite Hlog. intros e0 pdo0 Hin Hcalled.
    apply in_app_or in Hin. destruct Hin as [Hin | Hin].
    - invert_calls Hc; cbn [In] in Hin.
      + contradiction.
      + destruct Hin as [<- | []]. congruence.
      + destruct Hin as [<- | []]. discriminate Hcalled.
      + destruct Hin as [<- | [<- | []]]; discriminate Hcalled.
      + destruct Hin as [<- | [<- | [<- | []]]]; try discriminate Hcalled.
        rewrite Hpdo in Hcalled. injection Hcalled as <-.
        exists op, t. auto.
    - destruct (epilogue_cases (status_of r) (length_of r))
        as [[_ He] | [_ He]]; rewrite He in Hin; cbn [In] in Hin.
      + contradiction.
      + destruct Hin as [<- | []]. discriminate Hcalled. }
  split; [exact Hall |].
  intros pdo Hin.
  destruct (Hall _ pdo Hin eq_refl) as (c & t & _ & Ht & Hfound & Hcall).
  destruct c; try discriminate Hcall. injection Ht as <-. exact Hfound.
Qed.

(** X13: the input buffer is retrieved at most once, never for plug-in,
    unplug or an unknown code, and with the size of the structure of the
    request's control code as the minimum; a lookup is only made after that
    retrieval has succeeded. *)
Theorem input_retrieved_once
  (bus : BusState B) (Request : WDFREQUEST)
  (OutputBufferLength InputBufferLength IoControlCode : N) :
  let r := Dispatch hdr B bus Request
             OutputBufferLength InputBufferLength IoControlCode in
  (retrievals (log_of r) = []
   \/ exists c s,
        case_label hdr IoControlCode = Some c
        /\ input_struct c = Some s
        /\ retrievals (log_of r) = [sizeof hdr s])
  /\ (lookups (log_of r) <> [] ->
      exists c s,
        case_label hdr IoControlCode = Some c
        /\ input_struct c = Some s
        /\ retrieved hdr Request s = true
        /\ retrievals (log_of r) = [sizeof hdr s]).
Proof.
  intro r. destruct (run_shape bus Request OutputBufferLength
                       InputBufferLength IoControlCode) as (calls & Hc & Hlog).
  fold r in Hlog. rewrite Hlog, retrievals_app, lookups_app.
  assert (He : retrievals (epilogue B (status_of r) (length_of r)) = []
               /\ lookups (epilogue B (status_of r) (length_of r)) = []).
  { destruct (epilogue_cases (status_of r) (length_of r)) as [[_ ->] | [_ ->]];
      split; reflexivity. }
  destruct He as [-> ->]. rewrite !app_nil_r.
  invert_calls Hc.
  - split; [left; reflexivity | intro H; now elim H].
  - rewrite Hrt, Hlk. split; [left; reflexivity | intro H; now elim H].
  - split; [right; eauto | intro H; now elim H].
  - split; [right; eauto | intros _; eauto 6].
  - change [EvRetrieveInputBuffer (sizeof hdr s);
            EvGetPdoByTypeAndSerial t (SerialNo Request); e]
      with ([EvRetrieveInputBuffer (sizeof hdr s);
             EvGetPdoByTypeAndSerial t (SerialNo Request)] ++ [e]).
    rewrite retrievals_app, Hrt.
    split; [right; eauto | intros _; eauto 6].
Qed.

(** X10: the completion is the last thing the handler does with a request:
    the log is a run of calls without any completion, followed by the single
    completion with the final status and length, or by nothing when the status
    is STATUS_PENDING. *)
Theorem completion_is_last
  (bus : BusState B) (Request : WDFREQUEST)
  (OutputBufferLength InputBufferLength IoControlCode : N) :
  let r := Dispatch hdr B bus Request
             OutputBufferLength InputBufferLength IoControlCode in
  exists calls,
    log_of r = calls ++ epilogue B (status_of r) (length_of r)
    /\ completions calls = []
    /\ (List.length calls <= 3)%nat.
Proof.
  intro r. destruct (run_shape bus Request OutputBufferLength
                       InputBufferLength IoControlCode) as (calls & Hc & Hlog).
  exists calls. split; [exact Hlog |].
  invert_calls Hc; cbn [List.length].
  - split; [reflexivity | lia].
  - split; [assumption | lia].
  - split; [reflexivity | lia].
  - split; [reflexivity | lia].
  - change [EvRetrieveInputBuffer (sizeof hdr s);
            EvGetPdoByTypeAndSerial t (SerialNo Request); e]
      with ([EvRetrieveInputBuffer (sizeof hdr s);
             EvGetPdoByTypeAndSerial t (SerialNo Request)] ++ [e]).
    rewrite completions_app, Hcp. split; [reflexivity | lia].
Qed.

(** The framework call of the model has two statuses. *)
Lemma retrieve_status (Request : WDFREQUEST) (MinimumRequiredSize : N) :
  RetrieveInputBuffer Request MinimumRequiredSize
  = (STATUS_BUFFER_TOO_SMALL, 0%N)
  \/ RetrieveInputBuffer Request MinimumRequiredSize
     = (STATUS_SUCCESS, N.of_nat (List.length (SystemBuffer Request))).
Proof.
  unfold RetrieveInputBuffer.
  destruct (_ || _)%bool; auto.
Qed.

Lemma not_retrieved (Request : WDFREQUEST) (s : STRUCT) :
  retrieved hdr Request s = false ->
  RetrieveInputBuffer Request (sizeof hdr s) = (STATUS_BUFFER_TOO_SMALL, 0%N).
Proof.
  unfold retrieved.
  destruct (retrieve_status Request (sizeof hdr s)) as [-> | ->].
  - reflexivity.
  - discriminate.
Qed.

(** X1: the version check answers from the length of the input buffer and
    the declared version alone.  A buffer of exactly the structure's size
    gets STATUS_SUCCESS or STATUS_NOT_SUPPORTED by the version; any other
    buffer, shorter or longer, gets STATUS_INVALID_PARAMETER (the framework's
    own status for a short buffer is replaced).  The request is always
    completed, and neither the bus nor the buffer is touched. *)
Theorem check_version_outcome
  (bus : BusState B) (Request : WDFREQUEST)
  (OutputBufferLength InputBufferLength IoControlCode : N) :
  case_label hdr IoControlCode = Some IOCTL_VIGEM_CHECK_VERSION ->
  let len := N.of_nat (List.length (SystemBuffer Request)) in
  let r := Dispatch hdr B bus Request
             OutputBufferLength InputBufferLength IoControlCode in
  status_of r
  = (if ((len =? sizeof hdr VIGEM_CHECK_VERSION) && negb (len =? 0))%N
     then if (Version Request =? VIGEM_COMMON_VERSION hdr)%N
          then STATUS_SUCCESS else STATUS_NOT_SUPPORTED
     else STATUS_INVALID_PARAMETER)
  /\ length_of r
     = (if ((len =? 0) || (len <? sizeof hdr VIGEM_CHECK_VERSION))%N
        then 0%N else len)
  /\ log_of r
     = [ EvRetrieveInputBuffer (sizeof hdr VIGEM_CHECK_VERSION);
         EvComplete (status_of r) (Some (length_of r)) ]
  /\ bus_of r = bus
  /\ buffer_of r = SystemBuffer Request.
Proof.
  intros Hc len r. subst len r.
  unfold_dispatch. rewrite Hc. unfold RetrieveInputBuffer, Version.
  simpl_world. set (len := N.of_nat (List.length (SystemBuffer Request))).
  destruct (N.eqb_spec len 0) as [e0 | n0]; simpl_world.
  - change (NT_SUCCESS STATUS_BUFFER_TOO_SMALL) with false. simpl_world.
    rewrite andb_false_r. repeat split.
  - destruct (N.ltb_spec len (sizeof hdr VIGEM_CHECK_VERSION)) as [lt | ge];
      simpl_world.
    + change (NT_SUCCESS STATUS_BUFFER_TOO_SMALL) with false. simpl_world.
      destruct (N.eqb_spec len (sizeof hdr VIGEM_CHECK_VERSION)); [lia |].
      repeat split.
    + change (NT_SUCCESS STATUS_SUCCESS) with true. simpl_world.
      destruct (N.eqb_spec len (sizeof hdr VIGEM_CHECK_VERSION)) as [e | ne];
        simpl_world; [| repeat split].
      destruct (_ =? VIGEM_COMMON_VERSION hdr)%N; repeat split.
Qed.

(** X2: a target-scoped request (submit, notification, user index) whose
    input buffer is empty or shorter than its structure ends with the
    framework's STATUS_BUFFER_TOO_SMALL and no information; nothing is looked
    up and the bus is left as it was. *)
Theorem short_input_buffer_too_small
  (bus : BusState B) (Request : WDFREQUEST)
  (OutputBufferLength InputBufferLength IoControlCode : N)
  (c : IOCTL) (t : VIGEM_TARGET_TYPE) (s : STRUCT) :
  case_label hdr IoControlCode = Some c ->
  expected_type c = Some t ->
  input_struct c = Some s ->
  output_fits hdr OutputBufferLength c s = true ->
  retrieved hdr Request s = false ->
  let r := Dispatch hdr B bus Request
             OutputBufferLength InputBufferLength IoControlCode in
  status_of r = STATUS_BUFFER_TOO_SMALL
  /\ log_of r = [ EvRetrieveInputBuffer (sizeof hdr s);
                  EvComplete STATUS_BUFFER_TOO_SMALL (Some 0%N) ]
  /\ bus_of r = bus.
Proof.
  intros Hc Ht Hs Hout Hshort r. subst r.
  apply not_retrieved in Hshort.
  unfold output_fits in Hout. unfold_dispatch. rewrite Hc.
  destruct c; try discriminate Ht; injection Hs as <-; clear Ht.
  all: cbn [expects_output andb negb] in Hout.
  all: try (apply negb_true_iff in Hout; rewrite Hout).
  all: simpl_world; rewrite Hshort; simpl_world.
  all: change (NT_SUCCESS STATUS_BUFFER_TOO_SMALL) with false; simpl_world.
  all: repeat split.
Qed.

(** X5: a user-index request whose output capacity is below the size of its
    structure is rejected with STATUS_INVALID_PARAMETER before the input is
    retrieved and before any lookup. *)
Theorem user_index_small_output_rejected
  (bus : BusState B) (Request : WDFREQUEST)
  (OutputBufferLength InputBufferLength IoControlCode : N) :
  case_label hdr IoControlCode = Some IOCTL_XUSB_GET_USER_INDEX ->
  (OutputBufferLength < sizeof hdr XUSB_GET_USER_INDEX)%N ->
  let r := Dispatch hdr B bus Request
             OutputBufferLength InputBufferLength IoControlCode in
  status_of r = STATUS_INVALID_PARAMETER
  /\ log_of r = [EvComplete STATUS_INVALID_PARAMETER (Some 0%N)]
  /\ bus_of r = bus
  /\ buffer_of r = SystemBuffer Request.
Proof.
  intros Hc Hlt r. subst r. apply N.ltb_lt in Hlt.
  unfold_dispatch. rewrite Hc, Hlt. simpl_world. repeat split.
Qed.

(** X3: a plug-in or unplug request is handed to [Bus_PlugInDevice] or
    [Bus_UnPlugDevice] as it came: the handler neither retrieves the input
    nor looks anything up, and ends with the status, the length and the bus
    state that the call returned. *)
Theorem registry_request_passed_on
  (bus : BusState B) (Request : WDFREQUEST)
  (OutputBufferLength InputBufferLength IoControlCode : N)
  (c : IOCTL)
  (f : WDFREQUEST -> BusState B -> NTSTATUS * N * BusState B) :
  case_label hdr IoControlCode = Some c ->
  registry_call B c = Some f ->
  let r := Dispatch hdr B bus Request
             OutputBufferLength InputBufferLength IoControlCode in
  (status_of r, length_of r, bus_of r) = f Request bus
  /\ buffer_of r = SystemBuffer Request
  /\ exists e, registry_event c = Some e
               /\ log_of r = [e] ++ epilogue B (status_of r) (length_of r).
Proof.
  intros Hc Hf r. subst r.
  unfold_dispatch. unfold epilogue. rewrite Hc.
  destruct c; try discriminate Hf; injection Hf as <-; simpl_world.
  all: repeat split_step.
  all: try discriminate.
  all: repeat split; eexists; split; reflexivity.
Qed.

(** X4: when the request is valid and its target is found, the target's
    call decides the rest: the bus state is the one the call leaves, and the
    status is the one it returns, except that a notification request whose
    enqueueing succeeded ends as STATUS_PENDING.  The log is retrieval,
    lookup, the call, and the completion unless pending. *)
Theorem found_target_is_called
  (bus : BusState B) (Request : WDFREQUEST)
  (OutputBufferLength InputBufferLength IoControlCode : N)
  (c : IOCTL) (t : VIGEM_TARGET_TYPE) (s : STRUCT) (pdo : PDO B)
  (status : NTSTATUS) (bus' : BusState B) :
  case_label hdr IoControlCode = Some c ->
  expected_type c = Some t ->
  input_struct c = Some s ->
  output_fits hdr OutputBufferLength c s = true ->
  retrieved hdr Request s = true ->
  size_checks hdr Request InputBufferLength s = true ->
  SerialNo Request <> 0%N ->
  GetPdoByTypeAndSerial B bus t (SerialNo Request) = Some pdo ->
  target_result B c pdo Request bus = Some (status, bus') ->
  let r := Dispatch hdr B bus Request
             OutputBufferLength InputBufferLength IoControlCode in
  status_of r
  = (if is_request_notification c && NT_SUCCESS status
     then STATUS_PENDING else status)
  /\ bus_of r = bus'
  /\ exists e,
       target_call c pdo = Some e
       /\ log_of r
          = [ EvRetrieveInputBuffer (sizeof hdr s);
              EvGetPdoByTypeAndSerial t (SerialNo Request);
              e ] ++ epilogue B (status_of r) (length_of r).
Proof.
  intros Hc Ht Hs Hout Hok Hsz Hser Hpdo Hres r. subst r.
  unfold_contract. unfold_dispatch. unfold epilogue. rewrite Hc.
  destruct c; try discriminate Ht; injection Hs as <-; injection Ht as <-.
  all: cbn [expects_output] in Hout.
  all: cbn [target_result] in Hres.
  all: revert Hout Hok Hsz Hser Hpdo Hres; simpl_world.
  all: repeat split_step; intros.
  all: prop_of_bool; try congruence; try discriminate.
  all: repeat match goal with
       | H : Some _ = Some _ |- _ => injection H as H; subst
       end.
  all: try match goal with
       | E : GetUserIndex _ _ _ = _ |- _ =>
           rewrite E in Hres; injection Hres as Hres1 Hres2
       end.
  all: try match goal with
       | E : ?call = (_, _), H : ?call = (_, _) |- _ =>
           rewrite E in H; injection H as Hres1 Hres2
       end.
  all: subst.
  all: cbn [is_request_notification andb target_call] in *.
  all: try discriminate; try congruence.
  all: repeat split; eexists; split; reflexivity.
Qed.




(** X9: a request that the handler leaves uncompleted has been handed to a
    target or to plug-in/unplug: no validation failure and no missed lookup
    ever ends as STATUS_PENDING. *)
Theorem pending_only_after_hand_over
  (bus : BusState B) (Request : WDFREQUEST)
  (OutputBufferLength InputBufferLength IoControlCode : N) :
  let r := Dispatch hdr B bus Request
             OutputBufferLength InputBufferLength IoControlCode in
  status_of r = STATUS_PENDING ->
  existsb is_hand_over (log_of r) = true.
Proof.
  intro r. subst r.
  unfold_dispatch. simpl_world.
  repeat split_step.
  all: cbn [existsb is_hand_over orb]; intro Hp.
  all: try reflexivity.
  all: try discriminate Hp.
  all: subst;
    match goal with
    | E : RetrieveInputBuffer ?R ?m = _ |- _ =>
        destruct (retrieve_status R m) as [E' | E'];
        rewrite E' in E; discriminate E
    end.
Qed.


(** X11: once the input buffer of a request has been retrieved, the
    information reported for it is the length of that input buffer, whatever
    the rest of the run does and whatever the output capacity is. *)
Theorem information_is_input_length
  (bus : BusState B) (Request : WDFREQUEST)
  (OutputBufferLength InputBufferLength IoControlCode : N)
  (c : IOCTL) (s : STRUCT) :
  case_label hdr IoControlCode = Some c ->
  input_struct c = Some s ->
  output_fits hdr OutputBufferLength c s = true ->
  retrieved hdr Request s = true ->
  let r := Dispatch hdr B bus Request
             OutputBufferLength InputBufferLength IoControlCode in
  length_of r = N.of_nat (List.length (SystemBuffer Request)).
Proof.
  intros Hc Hs Hout Hok r. subst r.
  destruct (retrieved_success _ _ _ Hok) as [HR _].
  unfold output_fits in Hout. unfold_dispatch. rewrite Hc.
  destruct c; try discriminate Hs; injection Hs as <-.
  all: cbn [expects_output andb negb] in Hout.
  all: try (apply negb_true_iff in Hout; rewrite Hout).
  all: simpl_world; rewrite HR; simpl_world.
  all: repeat split_step; reflexivity.
Qed.

(** X12: the output capacity matters only to the three operations with
    output: for every other control code, known or not, the run is the same
    whatever [OutputBufferLength] is. *)
Theorem output_capacity_ignored
  (bus : BusState B) (Request : WDFREQUEST)
  (OutputBufferLength OutputBufferLength' InputBufferLength IoControlCode : N) :
  (forall c, case_label hdr IoControlCode = Some c ->
             expects_output c = false) ->
  Dispatch hdr B bus Request OutputBufferLength InputBufferLength IoControlCode
  = Dispatch hdr B bus Request
      OutputBufferLength' InputBufferLength IoControlCode.
Proof.
  intro H. unfold Dispatch, Bus_EvtIoDeviceControl, switch_IoControlCode.
  destruct (case_label hdr IoControlCode) as [c |]; [| reflexivity].
  specialize (H c eq_refl). destruct c; try discriminate H; reflexivity.
Qed.

End Runs_properties.

(** ** The further properties on concrete requests *)

Open Scope N_scope.

Lemma check_version_outcome_witness :
  let r := Dispatch Fixture.header Fixture.bus Fixture.plugged
             (Fixture.request 12 8 1) 0 12
             (CTL_CODE Fixture.header IOCTL_VIGEM_CHECK_VERSION) in
  status_of r = STATUS_INVALID_PARAMETER
  /\ length_of r = 12
  /\ bus_of r = Fixture.plugged.
Proof.
  destruct (check_version_outcome Fixture.header Fixture.bus Fixture.plugged
              (Fixture.request 12 8 1) 0 12
              (CTL_CODE Fixture.header IOCTL_VIGEM_CHECK_VERSION))
    as (Hstatus & Hlength & _ & Hbus & _).
  - reflexivity.
  - repeat split; assumption.
Defined.

Lemma short_input_buffer_too_small_witness :
  let r := Dispatch Fixture.header Fixture.bus Fixture.plugged
             (Fixture.request 4 20 0) 0 4
             (CTL_CODE Fixture.header IOCTL_XUSB_SUBMIT_REPORT) in
  status_of r = STATUS_BUFFER_TOO_SMALL
  /\ log_of r = [ EvRetrieveInputBuffer 20;
                  EvComplete STATUS_BUFFER_TOO_SMALL (Some 0) ]
  /\ bus_of r = Fixture.plugged.
Proof.
  apply (short_input_buffer_too_small Fixture.header Fixture.bus
           Fixture.plugged (Fixture.request 4 20 0) 0 4
           (CTL_CODE Fixture.header IOCTL_XUSB_SUBMIT_REPORT)
           IOCTL_XUSB_SUBMIT_REPORT Xbox360Wired XUSB_SUBMIT_REPORT);
    reflexivity.
Defined.

Lemma registry_request_passed_on_witness :
  let r := Dispatch Fixture.header Fixture.bus Fixture.plugged
             (Fixture.request 16 16 5) 0 16
             (CTL_CODE Fixture.header IOCTL_VIGEM_PLUGIN_TARGET) in
  (status_of r, length_of r, bus_of r)
  = Bus_PlugInDevice Fixture.bus (Fixture.request 16 16 5) Fixture.plugged
  /\ map Fixture.t_serial (bus_of r) = [5; 1; 7].
Proof.
  destruct (registry_request_passed_on Fixture.header Fixture.bus
              Fixture.plugged (Fixture.request 16 16 5) 0 16
              (CTL_CODE Fixture.header IOCTL_VIGEM_PLUGIN_TARGET)
              IOCTL_VIGEM_PLUGIN_TARGET (Bus_PlugInDevice Fixture.bus))
    as (Hresult & _).
  - reflexivity.
  - reflexivity.
  - split; [exact Hresult | reflexivity].
Defined.

Lemma found_target_is_called_witness :
  let Request := Fixture.request 20 20 1 in
  let r := Dispatch Fixture.header Fixture.bus Fixture.plugged Request 0 20
             (CTL_CODE Fixture.header IOCTL_XUSB_SUBMIT_REPORT) in
  status_of r = STATUS_SUCCESS
  /\ bus_of r
     = snd (SubmitReport Fixture.bus (Xbox360Wired, 1) (SystemBuffer Request)
              Fixture.plugged).
Proof.
  destruct (found_target_is_called Fixture.header Fixture.bus Fixture.plugged
              (Fixture.request 20 20 1) 0 20
              (CTL_CODE Fixture.header IOCTL_XUSB_SUBMIT_REPORT)
              IOCTL_XUSB_SUBMIT_REPORT Xbox360Wired XUSB_SUBMIT_REPORT
              (Xbox360Wired, 1) STATUS_SUCCESS
              (snd (SubmitReport Fixture.bus (Xbox360Wired, 1)
                      (SystemBuffer (Fixture.request 20 20 1))
                      Fixture.plugged)))
    as (Hstatus & Hbus & _); try reflexivity.
  - vm_compute; discriminate.
  - split; assumption.
Defined.

Lemma user_index_small_output_rejected_witness :
  let r := Dispatch Fixture.header Fixture.bus Fixture.plugged
             (Fixture.request 12 12 1) 8 12
             (CTL_CODE Fixture.header IOCTL_XUSB_GET_USER_INDEX) in
  status_of r = STATUS_INVALID_PARAMETER
  /\ log_of r = [EvComplete STATUS_INVALID_PARAMETER (Some 0)]
  /\ bus_of r = Fixture.plugged
  /\ buffer_of r = SystemBuffer (Fixture.request 12 12 1).
Proof.
  apply (user_index_small_output_rejected Fixture.header Fixture.bus
           Fixture.plugged (Fixture.request 12 12 1) 8 12
           (CTL_CODE Fixture.header IOCTL_XUSB_GET_USER_INDEX));
    reflexivity.
Defined.


Lemma pending_only_after_hand_over_witness :
  existsb is_hand_over
    (log_of (Dispatch Fixture.header Fixture.bus Fixture.plugged
               (Fixture.request 12 12 7) 12 12
               (CTL_CODE Fixture.header IOCTL_DS4_REQUEST_NOTIFICATION)))
  = true.
Proof.
  apply (pending_only_after_hand_over Fixture.header Fixture.bus
           Fixture.plugged (Fixture.request 12 12 7) 12 12
           (CTL_CODE Fixture.header IOCTL_DS4_REQUEST_NOTIFICATION)).
  reflexivity.
Defined.


Lemma information_is_input_length_witness :
  let r := Dispatch Fixture.header Fixture.bus Fixture.plugged
             (Fixture.request 24 20 1) 0 24
             (CTL_CODE Fixture.header IOCTL_XUSB_SUBMIT_REPORT) in
  status_of r = STATUS_SUCCESS /\ length_of r = 24.
Proof.
  split; [reflexivity |].
  apply (information_is_input_length Fixture.header Fixture.bus
           Fixture.plugged (Fixture.request 24 20 1) 0 24
           (CTL_CODE Fixture.header IOCTL_XUSB_SUBMIT_REPORT)
           IOCTL_XUSB_SUBMIT_REPORT XUSB_SUBMIT_REPORT);
    reflexivity.
Defined.

Lemma output_capacity_ignored_witness :
  Dispatch Fixture.header Fixture.bus Fixture.plugged
    (Fixture.request 20 20 1) 0 20
    (CTL_CODE Fixture.header IOCTL_XUSB_SUBMIT_REPORT)
  = Dispatch Fixture.header Fixture.bus Fixture.plugged
      (Fixture.request 20 20 1) 4096 20
      (CTL_CODE Fixture.header IOCTL_XUSB_SUBMIT_REPORT).
Proof.
  apply (output_capacity_ignored Fixture.header Fixture.bus Fixture.plugged
           (Fixture.request 20 20 1) 0 4096 20
           (CTL_CODE Fixture.header IOCTL_XUSB_SUBMIT_REPORT)).
  intros c Hc. vm_compute in Hc. injection Hc as <-. reflexivity.
Defined.

Close Scope N_scope.
